(** * browser-geo-tz: the timezone lookup of [src/find.ts]

    A shallow embedding of [init], [find] and [findImpl] and of the
    ECMAScript operations they rely on, followed by the properties of the
    lookup that the specification states.

    - JavaScript numbers are IEEE 754 binary64 values, taken from the
      standard library's [spec_float] with its correctly rounded operations.
    - The index document is a JSON value ([JsValue]); the loosely typed tests
      of the descent loop are evaluated on it with the coercions of the
      language.
    - Promises are represented by their eventual outcome; a call of
      [findImpl] is a state transformer over the memo cell of the bound
      instance and the trace of the requests issued so far. *)

From Stdlib Require Import ZArith List String Ascii Bool Arith Lia.
From Stdlib Require Import SpecFloat DecimalString.
Import ListNotations.

Set Implicit Arguments.
#[local] Set Warnings "-register-all".

(* ================================================================= *)
(** * Numbers *)

Module Num.

Definition number : Type := spec_float.

Definition prec : Z := 53.
Definition emax : Z := 1024.

Definition NaN : number := S754_nan.

(** The binary64 value of an integer literal. *)
Definition ofZ (z : Z) : number := binary_normalize prec emax z 0 false.

Definition add (x y : number) : number := SFadd prec emax x y.
Definition sub (x y : number) : number := SFsub prec emax x y.
Definition div (x y : number) : number := SFdiv prec emax x y.

Definition isNaN (x : number) : bool :=
  match x with S754_nan => true | _ => false end.

(** The four relational operators and [===] on numbers: each is false as
    soon as one operand is NaN. *)
Definition ltb (x y : number) : bool :=
  match SFcompare x y with Some Lt => true | _ => false end.
Definition gtb (x y : number) : bool :=
  match SFcompare x y with Some Gt => true | _ => false end.
Definition leb (x y : number) : bool :=
  match SFcompare x y with Some Lt | Some Eq => true | _ => false end.
Definition geb (x y : number) : bool :=
  match SFcompare x y with Some Gt | Some Eq => true | _ => false end.
Definition eqb (x y : number) : bool :=
  match SFcompare x y with Some Eq => true | _ => false end.

(** The integer a number denotes, when it denotes one (-0 denotes 0). *)
Definition toZ (x : number) : option Z :=
  match x with
  | S754_zero _ => Some 0%Z
  | S754_finite s m e =>
      let signed (z : Z) := if s then Z.opp z else z in
      match e with
      | Z0 => Some (signed (Zpos m))
      | Zpos p => Some (signed (Zpos m * Z.pow 2 (Zpos p))%Z)
      | Zneg p =>
          if Z.eqb (Z.modulo (Zpos m) (Z.pow 2 (Zpos p))) 0
          then Some (signed (Z.div (Zpos m) (Z.pow 2 (Zpos p))))
          else None
      end
  | _ => None
  end.

(** The literals of the source.  A decimal literal denotes the binary64
    value nearest to it, which the correctly rounded quotient of two
    integers yields. *)
Definition zero : number := Eval vm_compute in ofZ 0.
Definition one : number := Eval vm_compute in ofZ 1.
Definition two : number := Eval vm_compute in ofZ 2.
Definition n90 : number := Eval vm_compute in ofZ 90.
Definition m90 : number := Eval vm_compute in ofZ (-90).
Definition n180 : number := Eval vm_compute in ofZ 180.
Definition m180 : number := Eval vm_compute in ofZ (-180).
(** 89.9999, -89.9999, 179.9999 and -179.9999 *)
Definition n89_9999 : number :=
  Eval vm_compute in div (ofZ 899999) (ofZ 10000).
Definition m89_9999 : number :=
  Eval vm_compute in div (ofZ (-899999)) (ofZ 10000).
Definition n179_9999 : number :=
  Eval vm_compute in div (ofZ 1799999) (ofZ 10000).
Definition m179_9999 : number :=
  Eval vm_compute in div (ofZ (-1799999)) (ofZ 10000).

End Num.

Abbreviation number := Num.number.

(* ================================================================= *)
(** * JSON values and the operations of the language on them *)

(** What [response.json()] can produce, and [undefined] for what a property
    read finds absent.  An object lists its own properties in insertion
    order, each key once. *)
Inductive JsValue : Type :=
| JUndefined
| JNull
| JBool (b : bool)
| JNum (n : number)
| JStr (s : string)
| JArr (elems : list JsValue)
| JObj (fields : list (string * JsValue)).

(** Errors a call can be rejected with. *)
Inductive Error : Type :=
| InvalidLatitude (lat : number)     (* new Error("Invalid latitude: " + lat) *)
| InvalidLongitude (lon : number)    (* new Error("Invalid longitude: " + lon) *)
| UnexpectedDataType                 (* new Error("Unexpected data type") *)
| TypeError (what : string)          (* raised by the language itself *)
| Rejected (reason : string).        (* a provider or the decoder failed *)

(** How an awaited computation ends.  [Pending] is the outcome of a loop
    that was not given enough iterations to finish. *)
Inductive Outcome (A : Type) : Type :=
| Normal (a : A)
| Throw (e : Error)
| Pending.

Arguments Throw {A} e.
Arguments Pending {A}.

(** What a provider, [fetch] or the decoder answers: a value, or a failure
    of its own, which the caller sees as a rejection. *)
Inductive Response (A : Type) : Type :=
| Delivered (a : A)
| Failed (reason : string).

Arguments Failed {A} reason.

Module Js.

Open Scope string_scope.

(** ToBoolean *)
Definition truthy (v : JsValue) : bool :=
  match v with
  | JUndefined | JNull => false
  | JBool b => b
  | JNum n =>
      match n with
      | S754_zero _ | S754_nan => false
      | _ => true
      end
  | JStr s => negb (String.eqb s "")
  | JArr _ | JObj _ => true
  end.

(** typeof *)
Definition typeof (v : JsValue) : string :=
  match v with
  | JUndefined => "undefined"
  | JNull => "object"
  | JBool _ => "boolean"
  | JNum _ => "number"
  | JStr _ => "string"
  | JArr _ | JObj _ => "object"
  end.

Definition nullish (v : JsValue) : bool :=
  match v with JUndefined | JNull => true | _ => false end.

Fixpoint lookup (name : string) (fields : list (string * JsValue)) : JsValue :=
  match fields with
  | [] => JUndefined
  | (k, v) :: rest => if String.eqb k name then v else lookup name rest
  end.

(** [v.name] and [v[name]] on a value that is neither [undefined] nor
    [null], for the property names the source reads: "a", "b", "c", "d",
    "pos", "len", "length", "lookup", "timezones", "tzid".  None of them
    is an array index or a member of a built-in prototype, so only own
    properties and the [length] of arrays and strings answer. *)
Definition prop (v : JsValue) (name : string) : JsValue :=
  match v with
  | JObj fields => lookup name fields
  | JArr elems =>
      if String.eqb name "length"
      then JNum (Num.ofZ (Z.of_nat (List.length elems)))
      else JUndefined
  | JStr s =>
      if String.eqb name "length"
      then JNum (Num.ofZ (Z.of_nat (String.length s)))
      else JUndefined
  | _ => JUndefined
  end.

(** A property read, which throws on [undefined] and [null]. *)
Definition get (v : JsValue) (name : string) : Outcome JsValue :=
  if nullish v
  then Throw (TypeError ("Cannot read properties of undefined or null: " ++ name))
  else Normal (prop v name).

Section Coercions.

(** The two conversions between strings and numbers are operations of the
    host language (StringToNumber and Number::toString). *)
Variable StringToNumber : string -> number.
Variable NumberToString : number -> string.

(** ToString; on an array it is [join(",")], where [undefined] and
    [null] elements print as the empty string. *)
Fixpoint ToString (v : JsValue) : string :=
  match v with
  | JUndefined => "undefined"
  | JNull => "null"
  | JBool true => "true"
  | JBool false => "false"
  | JNum n => NumberToString n
  | JStr s => s
  | JArr elems =>
      String.concat ","
        (List.map (fun e => if nullish e then "" else ToString e) elems)
  | JObj _ => "[object Object]"
  end.

(** ToPrimitive: arrays and plain objects convert through [toString]. *)
Definition ToPrimitive (v : JsValue) : JsValue :=
  match v with
  | JArr _ | JObj _ => JStr (ToString v)
  | _ => v
  end.

(** ToNumber *)
Definition ToNumber (v : JsValue) : number :=
  match ToPrimitive v with
  | JUndefined => Num.NaN
  | JNull => Num.zero
  | JBool true => Num.one
  | JBool false => Num.zero
  | JNum n => n
  | JStr s => StringToNumber s
  | _ => Num.NaN
  end.

(** [v >= n] and [v > n] with a number on the right: the comparison is
    numeric. *)
Definition ge_num (v : JsValue) (n : number) : bool := Num.geb (ToNumber v) n.
Definition gt_num (v : JsValue) (n : number) : bool := Num.gtb (ToNumber v) n.

(** [x + y]: concatenation as soon as one primitive is a string. *)
Definition plus (x y : JsValue) : JsValue :=
  let px := ToPrimitive x in
  let py := ToPrimitive y in
  match px, py with
  | JStr _, _ | _, JStr _ => JStr (ToString px ++ ToString py)
  | _, _ => JNum (Num.add (ToNumber px) (ToNumber py))
  end.

(** [x - y] *)
Definition minus (x y : JsValue) : number := Num.sub (ToNumber x) (ToNumber y).

(** [o[key]] on a value [o] that is neither [undefined] nor [null], for a
    computed key.  A number that denotes an index selects that element of
    an array or that character of a string; a string key is an index
    when it is the canonical print of the number it reads as.  Members
    inherited from a built-in prototype are not JSON values and do not
    answer here. *)
Definition at_index (o : JsValue) (i : option Z) : JsValue :=
  match i with
  | Some z =>
      if (z <? 0)%Z then JUndefined
      else
        match o with
        | JArr elems => nth (Z.to_nat z) elems JUndefined
        | JStr s =>
            match String.get (Z.to_nat z) s with
            | Some c => JStr (String c EmptyString)
            | None => JUndefined
            end
        | _ => JUndefined
        end
  | None => JUndefined
  end.

Definition index_of_key (s : string) : option Z :=
  let n := StringToNumber s in
  if String.eqb (NumberToString n) s then Num.toZ n else None.

Definition elem (o key : JsValue) : JsValue :=
  match o with
  | JObj fields => lookup (ToString key) fields
  | JArr _ | JStr _ =>
      match key with
      | JNum n => at_index o (Num.toZ n)
      | _ =>
          let s := ToString key in
          if String.eqb s "length" then prop o "length"
          else at_index o (index_of_key s)
      end
  | _ => JUndefined
  end.

End Coercions.

End Js.

(* ================================================================= *)
(** * Decoded geometry, the ocean table and the host *)

(** A byte range of the geometry store. *)
Definition ArrayBuffer : Type := list Byte.byte.

(** What [decode(new Pbf(bufSlice))] yields: a feature collection, a single
    feature, or a bare geometry.  [properties] is an object or [null]. *)
Record Feature : Type := mkFeature {
  geometry : JsValue;
  properties : JsValue
}.

Inductive GeoJson : Type :=
| FeatureCollection (features : list Feature)
| SingleFeature (feature : Feature)
| BareGeometry (geom : JsValue).

(** A band of the ocean table of [./oceanUtils]. *)
Record OceanZone : Type := mkOceanZone {
  tzid : string;
  longitudeLow : number;
  longitudeHigh : number
}.

(** What the code takes from outside the repository: the conversions of the
    language, [fetch], the geobuf decoder and the point-in-polygon test. *)
Record Runtime : Type := mkRuntime {
  StringToNumber : string -> number;
  NumberToString : number -> string;
  (* fetch(url).then((response) => response.json()) *)
  fetchJson : string -> Response JsValue;
  (* fetch(url, { headers: { Range } }) followed by response.arrayBuffer() *)
  fetchRange : string -> string -> Response ArrayBuffer;
  (* decode(new Pbf(bufSlice)) *)
  decode : ArrayBuffer -> Response GeoJson;
  (* inside(pt, feature), with pt = point([lon, lat]) *)
  inside : number * number -> Feature -> bool
}.

(* ================================================================= *)
(** * The state of a bound instance and the requests it issues *)

Inductive Event : Type :=
| FetchIndex (url : string)                   (* the index document is fetched *)
| CallTzData                                  (* the injected index function runs *)
| FetchRange (url : string) (range : string)  (* a byte range is fetched *)
| CallGeoData (start : JsValue) (stop : number).  (* the injected geometry function runs *)

(** [tzDataPromise] is the variable [init] closes over; a promise is
    represented by the outcome it settles with. *)
Record Heap : Type := mkHeap {
  tzDataPromise : option (Response JsValue);
  trace : list Event
}.

Definition M (A : Type) : Type := Heap -> Outcome A * Heap.

Definition ret {A} (a : A) : M A := fun h => (Normal a, h).

Definition throw {A} (e : Error) : M A := fun h => (Throw e, h).

Definition settle {A} (o : Outcome A) : M A := fun h => (o, h).

Definition bind {A B} (m : M A) (k : A -> M B) : M B :=
  fun h =>
    match m h with
    | (Normal a, h') => k a h'
    | (Throw e, h') => (Throw e, h')
    | (Pending, h') => (Pending, h')
    end.

Definition await {A} (r : Response A) : M A :=
  fun h =>
    match r with
    | Delivered a => (Normal a, h)
    | Failed reason => (Throw (Rejected reason), h)
    end.

(** The heap with one more request in its trace. *)
Definition logged (e : Event) (h : Heap) : Heap :=
  {| tzDataPromise := tzDataPromise h; trace := trace h ++ [e] |}.

Definition emit (e : Event) : M unit := fun h => (Normal tt, logged e h).

Declare Scope monad_scope.
Delimit Scope monad_scope with monad.
Notation "x <- m ;; k" := (bind m (fun x => k))
  (at level 61, m at next level, right associativity) : monad_scope.
Notation "m ;; k" := (bind m (fun _ => k))
  (at level 61, right associativity) : monad_scope.

(* ================================================================= *)
(** * The quadtree descent *)

Record QuadData : Type := mkQuadData {
  top : number;
  bottom : number;
  left : number;
  right : number;
  midLat : number;
  midLon : number
}.

Record LoopState : Type := mkLoopState {
  curTzData : JsValue;
  quadData : QuadData;
  quadPos : string
}.

Section Find.

Open Scope string_scope.
Open Scope monad_scope.

Variable rt : Runtime.

(** The table [oceanZones] and the helper [getTimezoneAtSea] of
    [./oceanUtils], which is not among the sources. *)
Variable oceanZones : list OceanZone.
Variable getTimezoneAtSea : number -> list string.

(** An array of strings. *)
Definition strings (ids : list string) : list JsValue := List.map JStr ids.

Definition ToString := Js.ToString (NumberToString rt).
Definition ToNumber := Js.ToNumber (StringToNumber rt) (NumberToString rt).
Definition ge_num := Js.ge_num (StringToNumber rt) (NumberToString rt).
Definition gt_num := Js.gt_num (StringToNumber rt) (NumberToString rt).
Definition plus := Js.plus (StringToNumber rt) (NumberToString rt).
Definition minus := Js.minus (StringToNumber rt) (NumberToString rt).
Definition elem := Js.elem (StringToNumber rt) (NumberToString rt).

(** Source lines 300-317: the label of the next quadrant and the box shrunk
    to it. *)
Definition nextQuadrant (lat lon : number) (q : QuadData) : string * QuadData :=
  if Num.geb lat (midLat q) && Num.geb lon (midLon q) then
    ("a", {| top := top q; bottom := midLat q; left := midLon q; right := right q;
             midLat := midLat q; midLon := midLon q |})
  else if Num.geb lat (midLat q) && Num.ltb lon (midLon q) then
    ("b", {| top := top q; bottom := midLat q; left := left q; right := midLon q;
             midLat := midLat q; midLon := midLon q |})
  else if Num.ltb lat (midLat q) && Num.ltb lon (midLon q) then
    ("c", {| top := midLat q; bottom := bottom q; left := left q; right := midLon q;
             midLat := midLat q; midLon := midLon q |})
  else
    ("d", {| top := midLat q; bottom := bottom q; left := midLon q; right := right q;
             midLat := midLat q; midLon := midLon q |}).

(** Source lines 368-370. *)
Definition nextDepth (q : QuadData) : QuadData :=
  {| top := top q; bottom := bottom q; left := left q; right := right q;
     midLat := Num.div (Num.add (top q) (bottom q)) Num.two;
     midLon := Num.div (Num.add (left q) (right q)) Num.two |}.

(** Source lines 336-351: the [tzid] of the features that contain the
    point, in the order of the decoded collection. *)
Definition timezonesContainingPoint (pt : number * number) (geoJson : GeoJson)
  : list JsValue :=
  match geoJson with
  | FeatureCollection features =>
      List.flat_map
        (fun feature =>
           if inside rt pt feature then
             if Js.truthy (properties feature)
             then [Js.prop (properties feature) "tzid"]
             else []
           else [])
        features
  | SingleFeature feature =>
      if inside rt pt feature && Js.truthy (properties feature)
      then [Js.prop (properties feature) "tzid"]
      else []
  | BareGeometry _ => []
  end.

(** [curTzData.map((idx) => timezones[idx])] *)
Fixpoint mapTimezones (timezones : JsValue) (idxs : list JsValue)
  : Outcome (list JsValue) :=
  match idxs with
  | [] => Normal []
  | idx :: rest =>
      if Js.nullish timezones
      then Throw (TypeError "Cannot read properties of undefined or null")
      else
        match mapTimezones timezones rest with
        | Normal tzs => Normal (elem timezones idx :: tzs)
        | Throw e => Throw e
        | Pending => Pending
        end
  end.

Definition callMap (curTzData timezones : JsValue) : Outcome (list JsValue) :=
  match curTzData with
  | JArr idxs => mapTimezones timezones idxs
  | _ => Throw (TypeError "curTzData.map is not a function")
  end.

Section Loop.

(** What the loop of [findImpl] closes over. *)
Variable geoData : JsValue -> number -> M ArrayBuffer.
Variable tzDataResponse : JsValue.
Variables lat lon originalLon : number.

(** Source lines 329-357: the geometry of a leaf is fetched, decoded and
    searched for the point. *)
Definition resolveGeometry (curTzData : JsValue) : M (list JsValue) :=
  bufSlice <- geoData (Js.prop curTzData "pos")
                (minus (plus (Js.prop curTzData "pos") (Js.prop curTzData "len"))
                       (JNum Num.one)) ;;
  geoJson <- await (decode rt bufSlice) ;;
  let tzs := timezonesContainingPoint (lon, lat) geoJson in
  ret (if (0 <? List.length tzs)%nat then tzs
       else strings (getTimezoneAtSea originalLon)).

(** Source lines 359-361: the ids an index leaf lists. *)
Definition exactMatch (curTzData : JsValue) : M (list JsValue) :=
  timezones <- settle (Js.get tzDataResponse "timezones") ;;
  settle (callMap curTzData timezones).

(** One iteration of [while (true)], source lines 299-370: either the state
    of the next iteration or the value [findImpl] returns. *)
Definition loopBody (st : LoopState) : M (LoopState + list JsValue) :=
  let (nextQuad, quadData) := nextQuadrant lat lon (quadData st) in
  curTzData <- settle (Js.get (curTzData st) nextQuad) ;;
  let quadPos := quadPos st ++ nextQuad in
  if negb (Js.truthy curTzData) then
    ret (inr (strings (getTimezoneAtSea originalLon)))
  else if ge_num (Js.prop curTzData "pos") Num.zero
          && Js.truthy (Js.prop curTzData "len") then
    tzs <- resolveGeometry curTzData ;;
    ret (inr tzs)
  else if gt_num (Js.prop curTzData "length") Num.zero then
    tzs <- exactMatch curTzData ;;
    ret (inr tzs)
  else if negb (String.eqb (Js.typeof curTzData) "object") then
    throw UnexpectedDataType
  else
    ret (inl {| curTzData := curTzData;
                quadData := nextDepth quadData;
                quadPos := quadPos |}).

(** [while (true)], bounded by the number of iterations it may take. *)
Fixpoint whileLoop (fuel : nat) (st : LoopState) : M (list JsValue) :=
  match fuel with
  | O => settle Pending
  | S fuel' =>
      r <- loopBody st ;;
      match r with
      | inl st' => whileLoop fuel' st'
      | inr tzs => ret tzs
      end
  end.

End Loop.

(** Source lines 268-279: the edges of the world. *)
Definition clampLat (lat : number) : number :=
  if Num.geb lat Num.n89_9999 then Num.n89_9999
  else if Num.leb lat Num.m89_9999 then Num.m89_9999
  else lat.

Definition clampLon (lon : number) : number :=
  if Num.geb lon Num.n179_9999 then Num.n179_9999
  else if Num.leb lon Num.m179_9999 then Num.m179_9999
  else lon.

Definition initialQuadData : QuadData :=
  {| top := Num.n89_9999; bottom := Num.m89_9999;
     left := Num.m179_9999; right := Num.n179_9999;
     midLat := Num.zero; midLon := Num.zero |}.

(** Source lines 281-371: the lookup of a clamped point. *)
Definition descend (fuel : nat)
    (geoData : JsValue -> number -> M ArrayBuffer) (tzData : M JsValue)
    (lat lon originalLon : number) : M (list JsValue) :=
  tzDataResponse <- tzData ;;
  curTzData <- settle (Js.get tzDataResponse "lookup") ;;
  whileLoop geoData tzDataResponse lat lon originalLon fuel
    {| curTzData := curTzData; quadData := initialQuadData; quadPos := "" |}.

(** [findImpl], source lines 241-372. *)
Definition findImpl (fuel : nat)
    (geoData : JsValue -> number -> M ArrayBuffer) (tzData : M JsValue)
    (lat lon : number) : M (list JsValue) :=
  let originalLon := lon in
  if Num.isNaN lat || Num.gtb lat Num.n90 || Num.ltb lat Num.m90 then
    throw (InvalidLatitude lat)
  else if Num.isNaN lon || Num.gtb lon Num.n180 || Num.ltb lon Num.m180 then
    throw (InvalidLongitude lon)
  else if Num.eqb lat Num.n90 then
    ret (strings (List.map (fun zone => tzid zone) oceanZones))
  else
    descend fuel geoData tzData (clampLat lat) (clampLon lon) originalLon.

(** ** [init] *)

Inductive GeoDataSource : Type :=
| GeoUrl (url : string)
| GeoFn (f : JsValue -> number -> Response ArrayBuffer).

Inductive TzDataSource : Type :=
| TzUrl (url : string)
| TzFn (f : unit -> Response JsValue).

(** Source lines 189-197. *)
Definition geoDataOf (geoDataSource : GeoDataSource)
  : JsValue -> number -> M ArrayBuffer :=
  match geoDataSource with
  | GeoUrl url =>
      fun start stop =>
        let range := "bytes=" ++ ToString start ++ "-" ++ ToString (JNum stop) in
        emit (FetchRange url range) ;;
        await (fetchRange rt url range)
  | GeoFn f =>
      fun start stop =>
        emit (CallGeoData start stop) ;;
        await (f start stop)
  end.

(** Source lines 199-213. *)
Definition tzDataOf (tzDataSource : TzDataSource) : M JsValue :=
  match tzDataSource with
  | TzUrl url =>
      fun h =>
        match tzDataPromise h with
        | Some promise => await promise h
        | None =>
            let promise := fetchJson rt url in
            await promise
              {| tzDataPromise := Some promise;
                 trace := trace h ++ [FetchIndex url] |}
        end
  | TzFn f =>
      emit CallTzData ;;
      await (f tt)
  end.

Record BoundInstance : Type := mkBoundInstance {
  find : nat -> number -> number -> M (list JsValue)
}.

Definition init (geoDataSource : GeoDataSource) (tzDataSource : TzDataSource)
  : BoundInstance :=
  {| find := fun fuel lat lon =>
       findImpl fuel (geoDataOf geoDataSource) (tzDataOf tzDataSource) lat lon |}.

(** The heap of an instance [init] has just returned. *)
Definition freshHeap : Heap := {| tzDataPromise := None; trace := [] |}.

(* ================================================================= *)
(** * Vocabulary of the properties *)

(** [x] is a number of the closed range from [lo] to [hi]; NaN is in no
    range. *)
Definition inRange (lo hi x : number) : bool := Num.geb x lo && Num.leb x hi.

Definition validCoordinate (lat lon : number) : bool :=
  inRange Num.m90 Num.n90 lat && inRange Num.m180 Num.n180 lon.

Definition isInvalidCoordinate (e : Error) : bool :=
  match e with
  | InvalidLatitude _ | InvalidLongitude _ => true
  | _ => false
  end.

(** The five ways the loop treats the child it has selected, by the tests of
    source lines 325, 328, 358 and 362 in their order. *)
Inductive NodeKind : Type :=
| Empty | GeometryLeaf | IdListLeaf | Unexpected | Inner.

Definition analyze (curTzData : JsValue) : NodeKind :=
  if negb (Js.truthy curTzData) then Empty
  else if ge_num (Js.prop curTzData "pos") Num.zero
          && Js.truthy (Js.prop curTzData "len") then GeometryLeaf
  else if gt_num (Js.prop curTzData "length") Num.zero then IdListLeaf
  else if negb (String.eqb (Js.typeof curTzData) "object") then Unexpected
  else Inner.

(** The nesting of objects in a JSON value. *)
Fixpoint depth (v : JsValue) : nat :=
  match v with
  | JObj fields =>
      S (List.fold_right (fun '(_, child) acc => Nat.max (depth child) acc) 0%nat fields)
  | _ => 0%nat
  end.

(** [Visits lat lon cur q child q']: the loop, entered with the node [cur]
    and the box [q], selects the node [child] with the shrunk box [q'] in its
    first iteration or in a later one. *)
Inductive Visits (lat lon : number)
  : JsValue -> QuadData -> JsValue -> QuadData -> Prop :=
| Visits_here cur q :
    Js.nullish cur = false ->
    Visits lat lon cur q
      (Js.prop cur (fst (nextQuadrant lat lon q))) (snd (nextQuadrant lat lon q))
| Visits_below cur q child q' :
    Js.nullish cur = false ->
    analyze (Js.prop cur (fst (nextQuadrant lat lon q))) = Inner ->
    Visits lat lon (Js.prop cur (fst (nextQuadrant lat lon q)))
      (nextDepth (snd (nextQuadrant lat lon q))) child q' ->
    Visits lat lon cur q child q'.

(** What the index provider of an instance answers in a given heap. *)
Definition indexResponse (tzDataSource : TzDataSource) (h : Heap) : Response JsValue :=
  match tzDataSource with
  | TzUrl url =>
      match tzDataPromise h with
      | Some promise => promise
      | None => fetchJson rt url
      end
  | TzFn f => f tt
  end.


Definition geoRequest (geoDataSource : GeoDataSource) (start : JsValue) (stop : number)
  : Event :=
  match geoDataSource with
  | GeoUrl url =>
      FetchRange url ("bytes=" ++ ToString start ++ "-" ++ ToString (JNum stop))
  | GeoFn _ => CallGeoData start stop
  end.

Definition isIndexRequest (e : Event) : bool :=
  match e with
  | FetchIndex _ | CallTzData => true
  | _ => false
  end.

Definition isGeoRequest (e : Event) : bool :=
  match e with
  | FetchRange _ _ | CallGeoData _ _ => true
  | _ => false
  end.

Definition indexRequests (h : Heap) : list Event := List.filter isIndexRequest (trace h).

(** A sequence of calls of the bound [find], each awaited before the next. *)
Record Call : Type := mkCall {
  callFuel : nat;
  callLat : number;
  callLon : number
}.

Fixpoint runFinds (inst : BoundInstance) (calls : list Call) (h : Heap) : Heap :=
  match calls with
  | [] => h
  | c :: rest =>
      runFinds inst rest (snd (find inst (callFuel c) (callLat c) (callLon c) h))
  end.

(** No coordinate error is thrown. *)
Definition noCoordinateError {A} (o : Outcome A) : Prop :=
  match o with
  | Throw e => isInvalidCoordinate e = false
  | _ => True
  end.

(** The calls that get past the validation and the north-pole case. *)
Definition consultsIndex (c : Call) : bool :=
  validCoordinate (callLat c) (callLon c) && negb (Num.eqb (callLat c) Num.n90).


(** What the loop does with a selected node that ends it. *)
Definition terminal (geoData : JsValue -> number -> M ArrayBuffer)
    (tzDataResponse : JsValue) (lat lon originalLon : number) (child : JsValue)
  : M (list JsValue) :=
  match analyze child with
  | Empty => ret (strings (getTimezoneAtSea originalLon))
  | GeometryLeaf => resolveGeometry geoData lat lon originalLon child
  | IdListLeaf => exactMatch tzDataResponse child
  | Unexpected => throw UnexpectedDataType
  | Inner => settle Pending
  end.

(** The heap once the index provider of an instance has been consulted. *)
Definition afterIndex (tzDataSource : TzDataSource) (h : Heap) : Heap :=
  match tzDataSource with
  | TzUrl url =>
      match tzDataPromise h with
      | Some _ => h
      | None =>
          {| tzDataPromise := Some (fetchJson rt url);
             trace := trace h ++ [FetchIndex url] |}
      end
  | TzFn _ => logged CallTzData h
  end.

(** The range a geometry leaf is fetched with: [pos] and [pos + len - 1]. *)
Definition rangeStop (child : JsValue) : number :=
  minus (plus (Js.prop child "pos") (Js.prop child "len")) (JNum Num.one).

(** The features of a decoded slice, in the order of the decoder. *)
Definition featuresOf (geoJson : GeoJson) : list Feature :=
  match geoJson with
  | FeatureCollection features => features
  | SingleFeature feature => [feature]
  | BareGeometry _ => []
  end.


End Find.

(** The exported [find], source lines 237-239: [init()] with its default
    sources, then the bound [find]. *)
Module GeoTZ.

Definition defaultGeoDataSource : GeoDataSource :=
  GeoUrl "https://cdn.jsdelivr.net/npm/geo-tz@latest/data/timezones-1970.geojson.geo.dat".
Definition defaultTzDataSource : TzDataSource :=
  TzUrl "https://cdn.jsdelivr.net/npm/geo-tz@latest/data/timezones-1970.geojson.index.json".

Definition find (rt : Runtime) (oceanZones : list OceanZone)
    (getTimezoneAtSea : number -> list string)
    (fuel : nat) (lat lon : number) : Outcome (list JsValue) :=
  fst (find (init rt oceanZones getTimezoneAtSea defaultGeoDataSource defaultTzDataSource)
         fuel lat lon freshHeap).

End GeoTZ.

(** The exported [find] over several calls: each call runs [init()] anew, so
    that it starts with an empty memo cell, while the requests all go to the
    one trace. *)
Module Exported.

Definition call (rt : Runtime) (oceanZones : list OceanZone)
    (getTimezoneAtSea : number -> list string) (c : Call) (requests : list Event)
  : Outcome (list JsValue) * list Event :=
  let r :=
    find (init rt oceanZones getTimezoneAtSea
            GeoTZ.defaultGeoDataSource GeoTZ.defaultTzDataSource)
      (callFuel c) (callLat c) (callLon c)
      {| tzDataPromise := None; trace := requests |} in
  (fst r, trace (snd r)).

Fixpoint calls (rt : Runtime) (oceanZones : list OceanZone)
    (getTimezoneAtSea : number -> list string) (cs : list Call) (requests : list Event)
  : list Event :=
  match cs with
  | [] => requests
  | c :: rest =>
      calls rt oceanZones getTimezoneAtSea rest
        (snd (call rt oceanZones getTimezoneAtSea c requests))
  end.

End Exported.

(* ================================================================= *)
(** * The earlier [find], source lines 1-158

    The file also holds the [find] that preceded [init]: it reads the two
    CDN files, memoizes the index in a variable of the module and reads
    [properties.tzid] of a containing feature without a test. *)

Module Legacy.

Section LegacyFind.

Open Scope string_scope.
Open Scope monad_scope.

Variable rt : Runtime.
Variable oceanZones : list OceanZone.
Variable getTimezoneAtSea : number -> list string.

Definition geoUrl : string :=
  "https://cdn.jsdelivr.net/npm/geo-tz@latest/data/timezones-1970.geojson.geo.dat".
Definition indexUrl : string :=
  "https://cdn.jsdelivr.net/npm/geo-tz@latest/data/timezones-1970.geojson.index.json".

(** Source lines 8-16. *)
Definition geoData (start : JsValue) (stop : number) : M ArrayBuffer :=
  let range := "bytes=" ++ ToString rt start ++ "-" ++ ToString rt (JNum stop) in
  emit (FetchRange geoUrl range) ;;
  await (fetchRange rt geoUrl range).

(** Source lines 81-83: [tzData()], lines 18-23, is called unless its promise
    is already in [tzDataPromise]. *)
Definition ensureTzData : M unit :=
  fun h =>
    match tzDataPromise h with
    | Some _ => (Normal tt, h)
    | None =>
        (Normal tt,
         {| tzDataPromise := Some (fetchJson rt indexUrl);
            trace := trace h ++ [FetchIndex indexUrl] |})
    end.

(** [await tzDataPromise], source lines 85 and 146; awaiting [null] yields
    [null]. *)
Definition awaitTzData : M JsValue :=
  fun h =>
    match tzDataPromise h with
    | Some promise => await promise h
    | None => (Normal JNull, h)
    end.

(** Source lines 128-132: the features are gone through in order, and
    [properties.tzid] is read of each one that contains the point. *)
Fixpoint collect (pt : number * number) (features : list Feature)
  : Outcome (list JsValue) :=
  match features with
  | [] => Normal []
  | feature :: rest =>
      if inside rt pt feature then
        match Js.get (properties feature) "tzid" with
        | Normal id =>
            match collect pt rest with
            | Normal ids => Normal (id :: ids)
            | Throw e => Throw e
            | Pending => Pending
            end
        | Throw e => Throw e
        | Pending => Pending
        end
      else collect pt rest
  end.

(** Source lines 125-137. *)
Definition timezonesContainingPoint (pt : number * number) (geoJson : GeoJson)
  : Outcome (list JsValue) :=
  match geoJson with
  | FeatureCollection features => collect pt features
  | SingleFeature feature => collect pt [feature]
  | BareGeometry _ => Normal []
  end.

Section Loop.

Variables lat lon originalLon : number.

(** Source lines 118-143. *)
Definition resolveGeometry (curTzData : JsValue) : M (list JsValue) :=
  bufSlice <- geoData (Js.prop curTzData "pos")
                (minus rt (plus rt (Js.prop curTzData "pos") (Js.prop curTzData "len"))
                          (JNum Num.one)) ;;
  geoJson <- await (decode rt bufSlice) ;;
  tzs <- settle (timezonesContainingPoint (lon, lat) geoJson) ;;
  ret (if (0 <? List.length tzs)%nat then tzs
       else strings (getTimezoneAtSea originalLon)).

(** Source lines 145-147. *)
Definition exactMatch (curTzData : JsValue) : M (list JsValue) :=
  tzDataResponse <- awaitTzData ;;
  timezones <- settle (Js.get tzDataResponse "timezones") ;;
  settle (callMap rt curTzData timezones).

(** One iteration of [while (true)], source lines 88-156. *)
Definition loopBody (st : LoopState) : M (LoopState + list JsValue) :=
  let (nextQuad, quadData) := nextQuadrant lat lon (quadData st) in
  curTzData <- settle (Js.get (curTzData st) nextQuad) ;;
  let quadPos := quadPos st ++ nextQuad in
  if negb (Js.truthy curTzData) then
    ret (inr (strings (getTimezoneAtSea originalLon)))
  else if ge_num rt (Js.prop curTzData "pos") Num.zero
          && Js.truthy (Js.prop curTzData "len") then
    tzs <- resolveGeometry curTzData ;;
    ret (inr tzs)
  else if gt_num rt (Js.prop curTzData "length") Num.zero then
    tzs <- exactMatch curTzData ;;
    ret (inr tzs)
  else if negb (String.eqb (Js.typeof curTzData) "object") then
    throw UnexpectedDataType
  else
    ret (inl {| curTzData := curTzData;
                quadData := nextDepth quadData;
                quadPos := quadPos |}).

Fixpoint whileLoop (fuel : nat) (st : LoopState) : M (list JsValue) :=
  match fuel with
  | O => settle Pending
  | S fuel' =>
      r <- loopBody st ;;
      match r with
      | inl st' => whileLoop fuel' st'
      | inr tzs => ret tzs
      end
  end.

End Loop.

(** [find], source lines 34-158. *)
Definition find (fuel : nat) (lat lon : number) : M (list JsValue) :=
  let originalLon := lon in
  if Num.isNaN lat || Num.gtb lat Num.n90 || Num.ltb lat Num.m90 then
    throw (InvalidLatitude lat)
  else if Num.isNaN lon || Num.gtb lon Num.n180 || Num.ltb lon Num.m180 then
    throw (InvalidLongitude lon)
  else if Num.eqb lat Num.n90 then
    ret (strings (List.map (fun zone => tzid zone) oceanZones))
  else
    ensureTzData ;;
    tzDataResponse <- awaitTzData ;;
    curTzData <- settle (Js.get tzDataResponse "lookup") ;;
    whileLoop (clampLat lat) (clampLon lon) originalLon fuel
      {| curTzData := curTzData; quadData := initialQuadData; quadPos := "" |}.

(** What the loop does with a selected node that ends it. *)
Definition terminal (lat lon originalLon : number) (child : JsValue) : M (list JsValue) :=
  match analyze rt child with
  | Empty => ret (strings (getTimezoneAtSea originalLon))
  | GeometryLeaf => resolveGeometry lat lon originalLon child
  | IdListLeaf => exactMatch child
  | Unexpected => throw UnexpectedDataType
  | Inner => settle Pending
  end.

End LegacyFind.

End Legacy.

(** Calls of the earlier [find], each awaited before the next; they share
    the memo of the module. *)
Fixpoint legacyRuns (rt : Runtime) (oceanZones : list OceanZone)
    (getTimezoneAtSea : number -> list string) (calls : list Call) (h : Heap) : Heap :=
  match calls with
  | [] => h
  | c :: rest =>
      legacyRuns rt oceanZones getTimezoneAtSea rest
        (snd (Legacy.find rt oceanZones getTimezoneAtSea
                (callFuel c) (callLat c) (callLon c) h))
  end.

(** ** Vocabulary of the proofs *)

(** The outcome of an iteration that ends the loop. *)
Definition lift_inr {A B} (r : Outcome A * Heap) : Outcome (B + A) * Heap :=
  match r with
  | (Normal a, h) => (Normal (inr a), h)
  | (Throw e, h) => (Throw e, h)
  | (Pending, h) => (Pending, h)
  end.

(** A computation is quiet when it throws no coordinate error, leaves the
    memo cell alone and only adds geometry requests to the trace. *)
Definition Quiet {A} (m : M A) : Prop :=
  forall h,
    noCoordinateError (fst (m h))
    /\ tzDataPromise (snd (m h)) = tzDataPromise h
    /\ exists evs,
         trace (snd (m h)) = trace h ++ evs /\ List.forallb isGeoRequest evs = true.

(** With a URL, the memo cell is empty as long as no index request has been
    made, and one request at most has been made once it is filled. *)
Definition MemoInvariant (h : Heap) : Prop :=
  match tzDataPromise h with
  | None => indexRequests h = []
  | Some _ => List.length (indexRequests h) <= 1
  end.

(** Modelled from the spec: [getTimezoneAtSea] of [./oceanUtils], which is
    not among the sources.  It returns the id of every band of the ocean
    table whose range [longitudeLow, longitudeHigh] contains the longitude,
    in table order. *)
Definition bandsContaining (oceanZones : list OceanZone) (originalLon : number)
  : list string :=
  List.map (fun zone => tzid zone)
    (List.filter
       (fun zone =>
          Num.leb (longitudeLow zone) originalLon
          && Num.leb originalLon (longitudeHigh zone))
       oceanZones).


(* ================================================================= *)
(** * Sample host, table and documents

    Concrete values on which the model is evaluated. *)

Module Sample.

Open Scope string_scope.

(** A host that prints and reads the integers, which are the only numbers
    the sample documents contain. *)
Definition printNumber (n : number) : string :=
  match Num.toZ n with
  | Some z => DecimalString.NilZero.string_of_int (Z.to_int z)
  | None => "NaN"
  end.

Definition readNumber (s : string) : number :=
  if String.eqb s "" then Num.zero
  else
    match DecimalString.NilZero.int_of_string s with
    | Some i => Num.ofZ (Z.of_int i)
    | None => Num.NaN
    end.

Definition num (z : Z) : JsValue := JNum (Num.ofZ z).

(** A geometry is a box [west, south, east, north]; the containment test of
    the sample host is the one of boxes. *)
Definition box (west south east north : Z) : JsValue :=
  JArr [num west; num south; num east; num north].

Definition contains (pt : number * number) (feature : Feature) : bool :=
  match geometry feature with
  | JArr [JNum west; JNum south; JNum east; JNum north] =>
      Num.leb west (fst pt) && Num.leb (fst pt) east
      && Num.leb south (snd pt) && Num.leb (snd pt) north
  | _ => false
  end.

Definition indexUrl : string := "https://example.org/index.json".
Definition geoUrl : string := "https://example.org/geo.dat".

Definition london : Feature :=
  mkFeature (box 0 0 10 10) (JObj [("tzid", JStr "Europe/London")]).
Definition lagos : Feature :=
  mkFeature (box 0 0 20 20) (JObj [("tzid", JStr "Africa/Lagos")]).
Definition unnamed : Feature := mkFeature (box 0 0 20 20) (JObj []).
Definition bare : Feature := mkFeature (box 0 0 20 20) JNull.
Definition far : Feature :=
  mkFeature (box 100 50 120 60) (JObj [("tzid", JStr "Asia/Tokyo")]).

(** The geometry store: three slices, told apart by their first byte. *)
Definition store (url range : string) : Response ArrayBuffer :=
  if negb (String.eqb url geoUrl) then Failed "404"
  else if String.eqb range "bytes=0-9" then Delivered [Byte.x01]
  else if String.eqb range "bytes=10-29" then Delivered [Byte.x02]
  else if String.eqb range "bytes=30-39" then Delivered [Byte.x03]
  else Failed "416".

Definition decoder (buf : ArrayBuffer) : Response GeoJson :=
  match buf with
  | [Byte.x01] => Delivered (FeatureCollection [london; bare; lagos; far])
  | [Byte.x02] => Delivered (FeatureCollection [unnamed; lagos])
  | [Byte.x03] => Delivered (SingleFeature far)
  | _ => Failed "Unimplemented type"
  end.

Definition geoFn (start : JsValue) (stop : number) : Response ArrayBuffer :=
  match start with
  | JNum n =>
      store geoUrl ("bytes=" ++ printNumber n ++ "-" ++ printNumber stop)
  | _ => Failed "bad range"
  end.

Definition leaf (pos len : Z) : JsValue := JObj [("pos", num pos); ("len", num len)].

(** The index: the point (1, 1) descends through "a" and "c". *)
Definition lookupOf (ac : list (string * JsValue)) : JsValue :=
  JObj [("a", JObj (ac ++ [("a", JArr [num 1; num 0])]));
        ("b", JArr [num 0])].

Definition document (ac : list (string * JsValue)) : JsValue :=
  JObj [("lookup", lookupOf ac);
        ("timezones", JArr [JStr "Europe/London"; JStr "Africa/Lagos"])].

(** The documents differ in the node under "a" then "c". *)
Definition docGeometry : JsValue := document [("c", leaf 0 10)].
Definition docUnnamed : JsValue := document [("c", leaf 10 20)].

Definition runtime (doc : JsValue) : Runtime :=
  {| StringToNumber := readNumber;
     NumberToString := printNumber;
     fetchJson := fun url =>
       if String.eqb url indexUrl then Delivered doc else Failed "404";
     fetchRange := store;
     decode := decoder;
     inside := contains |}.

Definition oceanZones : list OceanZone :=
  [ mkOceanZone "Etc/GMT-8" (Num.ofZ 60) (Num.ofZ 180);
    mkOceanZone "Etc/GMT" (Num.ofZ (-60)) (Num.ofZ 60);
    mkOceanZone "Etc/GMT+8" (Num.ofZ (-180)) (Num.ofZ (-60)) ].

(** The helper the specification describes, on the sample table. *)
Definition atSea : number -> list string := bandsContaining oceanZones.

(** The coordinate 1 of the sample point (1, 1). *)
Definition one : number := Num.ofZ 1.

(** An instance bound to the sample sources, and one bound to functions. *)
Definition urlInstance (doc : JsValue) : BoundInstance :=
  init (runtime doc) oceanZones atSea (GeoUrl geoUrl) (TzUrl indexUrl).

Definition fnInstance (doc : JsValue) : BoundInstance :=
  init (runtime doc) oceanZones atSea (GeoFn geoFn) (TzFn (fun _ => Delivered doc)).

End Sample.

(** More documents and hosts: nodes and documents the lookup cannot
    resolve, and a host that serves the sample store under the two CDN
    addresses. *)
Module MoreSamples.

Open Scope string_scope.

Definition docString : JsValue := Sample.document [("c", JStr "x")].
Definition docNoTable : JsValue := JObj [("lookup", Sample.lookupOf [])].
Definition docNoLookup : JsValue := JObj [("timezones", JArr [])].

Definition missingUrl : string := "https://example.org/missing.json".

(** A decoder whose features all have properties. *)
Definition namedDecoder (buf : ArrayBuffer) : Response GeoJson :=
  Delivered (FeatureCollection [Sample.london; Sample.lagos; Sample.far]).

Definition cdnRuntime (doc : JsValue) (decoder : ArrayBuffer -> Response GeoJson)
  : Runtime :=
  {| StringToNumber := Sample.readNumber;
     NumberToString := Sample.printNumber;
     fetchJson := fun url =>
       if String.eqb url Legacy.indexUrl then Delivered doc else Failed "404";
     fetchRange := fun url range =>
       if String.eqb url Legacy.geoUrl then Sample.store Sample.geoUrl range
       else Failed "404";
     decode := decoder;
     inside := Sample.contains |}.

Definition minusOne : number := Num.ofZ (-1).

End MoreSamples.

Unset Implicit Arguments.

(** The outcome of a computation does not depend on the heap it starts in. *)
Definition HeapBlind {A} (m : M A) : Prop := forall h h', fst (m h) = fst (m h').

(** The heaps of an instance: with a URL, the memo cell is empty and no
    index request has been made, or it holds the promise of the one fetch
    that has been made. *)
Definition InstanceHeap (rt : Runtime) (t : TzDataSource) (h : Heap) : Prop :=
  match t with
  | TzUrl url =>
      (tzDataPromise h = None /\ indexRequests h = [])
      \/ (tzDataPromise h = Some (fetchJson rt url)
          /\ indexRequests h = [FetchIndex url])
  | TzFn _ => True
  end.

(** The point lies within the box of the descent. *)
Definition inBox (lat lon : number) (q : QuadData) : bool :=
  Num.geb lat (bottom q) && Num.leb lat (top q)
  && Num.geb lon (left q) && Num.leb lon (right q).

(* ================================================================= *)
(** * Facts on numbers *)

Lemma SFcompare_defined (x y : number) :
  Num.isNaN x = false -> Num.isNaN y = false ->
  exists c, SFcompare x y = Some c.
Proof.
  destruct x, y; simpl; intros Hx Hy; try discriminate; eauto.
Qed.

Lemma geb_true_ltb (x y : number) : Num.geb x y = true -> Num.ltb x y = false.
Proof.
  unfold Num.geb, Num.ltb. destruct (SFcompare x y) as [[ | | ] | ]; congruence.
Qed.


(** The test of the validation, negated, is membership of the range. *)
Lemma inRange_check (lo hi x : number) :
  Num.isNaN lo = false -> Num.isNaN hi = false ->
  inRange lo hi x = negb (Num.isNaN x || Num.gtb x hi || Num.ltb x lo).
Proof.
  intros Hlo Hhi. unfold inRange, Num.geb, Num.leb, Num.gtb, Num.ltb.
  destruct (Num.isNaN x) eqn:Hx.
  - destruct x; try discriminate. reflexivity.
  - destruct (SFcompare_defined x lo Hx Hlo) as [c1 ->].
    destruct (SFcompare_defined x hi Hx Hhi) as [c2 ->].
    destruct c1, c2; reflexivity.
Qed.

Lemma validCoordinate_checks (lat lon : number) :
  validCoordinate lat lon
  = negb (Num.isNaN lat || Num.gtb lat Num.n90 || Num.ltb lat Num.m90)
    && negb (Num.isNaN lon || Num.gtb lon Num.n180 || Num.ltb lon Num.m180).
Proof.
  unfold validCoordinate.
  rewrite !inRange_check by reflexivity. reflexivity.
Qed.

(* ================================================================= *)
(** * Facts on the monad *)

Lemma bind_ret_inr {A B} (m : M A) (h : Heap) :
  bind m (fun a => ret (@inr B A a)) h = lift_inr (m h).
Proof.
  unfold bind, ret, lift_inr. destruct (m h) as [[a | e | ] h']; reflexivity.
Qed.

(* ================================================================= *)
(** * The loop, iteration by iteration *)

Section LoopFacts.

Variable rt : Runtime.
Variable getTimezoneAtSea : number -> list string.
Variable geoData : JsValue -> number -> M ArrayBuffer.
Variable tzDataResponse : JsValue.
Variables lat lon originalLon : number.

#[local] Abbreviation body := (loopBody rt getTimezoneAtSea geoData tzDataResponse lat lon originalLon).
#[local] Abbreviation loop := (whileLoop rt getTimezoneAtSea geoData tzDataResponse lat lon originalLon).
#[local] Abbreviation ending := (terminal rt getTimezoneAtSea geoData tzDataResponse lat lon originalLon).

(** An iteration selects a child, and either ends the loop the way the
    child's kind says or enters the child with the midpoints of the shrunk
    box. *)
Lemma loopBody_analyze (st : LoopState) (h : Heap) :
  Js.nullish (curTzData st) = false ->
  body st h =
    let label := fst (nextQuadrant lat lon (quadData st)) in
    let child := Js.prop (curTzData st) label in
    match analyze rt child with
    | Inner =>
        (Normal (inl {| curTzData := child;
                        quadData := nextDepth (snd (nextQuadrant lat lon (quadData st)));
                        quadPos := (quadPos st ++ label)%string |}), h)
    | _ => lift_inr (ending child h)
    end.
Proof.
  intros Hcur. unfold loopBody, terminal, analyze.
  destruct (nextQuadrant lat lon (quadData st)) as [label q1]. cbn [fst snd].
  unfold Js.get. rewrite Hcur. unfold bind at 1. unfold settle at 1.
  destruct (Js.truthy (Js.prop (curTzData st) label)); cbn [negb]; [ | reflexivity ].
  destruct (ge_num rt (Js.prop (Js.prop (curTzData st) label) "pos") Num.zero
            && Js.truthy (Js.prop (Js.prop (curTzData st) label) "len")).
  { apply bind_ret_inr. }
  destruct (gt_num rt (Js.prop (Js.prop (curTzData st) label) "length") Num.zero).
  { apply bind_ret_inr. }
  destruct (String.eqb (Js.typeof (Js.prop (curTzData st) label)) "object");
    reflexivity.
Qed.

Lemma analyze_Inner_inv (v : JsValue) :
  analyze rt v = Inner -> Js.truthy v = true /\ Js.typeof v = "object"%string.
Proof.
  unfold analyze.
  destruct (Js.truthy v); cbn [negb]; [ | discriminate ].
  destruct (ge_num rt (Js.prop v "pos") Num.zero && Js.truthy (Js.prop v "len"));
    [discriminate | ].
  destruct (gt_num rt (Js.prop v "length") Num.zero); [discriminate | ].
  destruct (String.eqb (Js.typeof v) "object") eqn:Hty; cbn [negb]; [ | discriminate ].
  intros _. split; [reflexivity | now apply String.eqb_eq].
Qed.

Lemma analyze_Inner_object (v : JsValue) :
  analyze rt v = Inner ->
  (exists fields, v = JObj fields) \/ (exists elems, v = JArr elems).
Proof.
  intros H. destruct (analyze_Inner_inv v H) as [Ht Hty].
  destruct v; cbn in Ht, Hty; try discriminate; eauto.
Qed.

Lemma depth_lookup (name : string) (fields : list (string * JsValue)) :
  depth (Js.lookup name fields)
  <= List.fold_right (fun '(_, child) acc => Nat.max (depth child) acc) 0 fields.
Proof.
  induction fields as [ | [k v] rest IH]; cbn [Js.lookup List.fold_right].
  - cbn. lia.
  - destruct (String.eqb k name); lia.
Qed.

(** The loop only enters a property of an object, which is nested less
    deeply than the object. *)
Lemma depth_Inner_child (cur : JsValue) (name : string) :
  analyze rt (Js.prop cur name) = Inner ->
  depth (Js.prop cur name) < depth cur.
Proof.
  intros Hin. destruct (analyze_Inner_object _ Hin) as [[fs Hv] | [es Hv]];
    destruct cur; cbn [Js.prop] in *; try discriminate;
    try (destruct (String.eqb name "length"); discriminate).
  all: cbn [depth]; pose proof (depth_lookup name fields); lia.
Qed.

Lemma whileLoop_ends (fuel : nat) (st : LoopState) (h : Heap) :
  Js.nullish (curTzData st) = false ->
  analyze rt (Js.prop (curTzData st) (fst (nextQuadrant lat lon (quadData st)))) <> Inner ->
  loop (S fuel) st h
  = ending (Js.prop (curTzData st) (fst (nextQuadrant lat lon (quadData st)))) h.
Proof.
  intros Hcur Hkind. cbn [whileLoop]. unfold bind at 1.
  rewrite (loopBody_analyze st h Hcur). cbv zeta.
  destruct (analyze rt (Js.prop (curTzData st) (fst (nextQuadrant lat lon (quadData st)))));
    try contradiction;
    destruct (ending _ h) as [[tzs | e | ] h']; reflexivity.
Qed.

Lemma whileLoop_enters (fuel : nat) (st : LoopState) (h : Heap) :
  Js.nullish (curTzData st) = false ->
  analyze rt (Js.prop (curTzData st) (fst (nextQuadrant lat lon (quadData st)))) = Inner ->
  loop (S fuel) st h
  = loop fuel
      {| curTzData := Js.prop (curTzData st) (fst (nextQuadrant lat lon (quadData st)));
         quadData := nextDepth (snd (nextQuadrant lat lon (quadData st)));
         quadPos := (quadPos st ++ fst (nextQuadrant lat lon (quadData st)))%string |} h.
Proof.
  intros Hcur Hkind. cbn [whileLoop]. unfold bind at 1.
  rewrite (loopBody_analyze st h Hcur). cbv zeta. rewrite Hkind. reflexivity.
Qed.

(** The loop returns what the first visited node that is not an Inner one
    resolves to, as soon as it may take more iterations than the index is
    deep. *)
Lemma whileLoop_visits (cur : JsValue) (q : QuadData) (child : JsValue) (q' : QuadData) :
  Visits rt lat lon cur q child q' ->
  analyze rt child <> Inner ->
  forall fuel pos h,
    depth cur < fuel ->
    loop fuel {| curTzData := cur; quadData := q; quadPos := pos |} h = ending child h.
Proof.
  induction 1 as [cur q Hcur | cur q child q' Hcur Hin Hvis IH]; intros Hkind fuel pos h Hfuel.
  - destruct fuel as [ | fuel]; [lia | ].
    apply whileLoop_ends; assumption.
  - destruct fuel as [ | fuel]; [lia | ].
    rewrite whileLoop_enters by assumption. cbn [curTzData quadData quadPos].
    apply IH; [assumption | ].
    pose proof (depth_Inner_child cur _ Hin). lia.
Qed.


End LoopFacts.

(* ================================================================= *)
(** * What the lookup leaves in the heap, and what it throws *)

Lemma Quiet_here {A} (o : Outcome A) :
  noCoordinateError o -> Quiet (settle o).
Proof.
  intros Ho h. cbn. repeat split; auto. exists []. now rewrite app_nil_r.
Qed.

Lemma Quiet_ret {A} (a : A) : Quiet (ret a).
Proof. apply (Quiet_here (Normal a)). exact I. Qed.

Lemma Quiet_await {A} (r : Response A) : Quiet (await r).
Proof.
  intros h. destruct r; cbn; repeat split; auto; exists []; now rewrite app_nil_r.
Qed.

Lemma Quiet_emit (e : Event) : isGeoRequest e = true -> Quiet (emit e).
Proof.
  intros He h. cbn. repeat split; auto. exists [e]. cbn. now rewrite He.
Qed.

Lemma Quiet_bind {A B} (m : M A) (k : A -> M B) :
  Quiet m -> (forall a, Quiet (k a)) -> Quiet (bind m k).
Proof.
  intros Hm Hk h. unfold bind.
  destruct (Hm h) as (Ho & Hp & evs & Ht & Hg).
  destruct (m h) as [[a | e | ] h1]; cbn [fst snd] in *.
  - destruct (Hk a h1) as (Ho' & Hp' & evs' & Ht' & Hg').
    split; [assumption | ]. split; [congruence | ].
    exists (evs ++ evs'). rewrite Ht', Ht, app_assoc, forallb_app, Hg, Hg'. auto.
  - repeat split; eauto.
  - repeat split; eauto.
Qed.

Section Quietness.

Variable rt : Runtime.
Variable getTimezoneAtSea : number -> list string.
Variable geoDataSource : GeoDataSource.

Lemma Quiet_geoDataOf (start : JsValue) (stop : number) :
  Quiet (geoDataOf rt geoDataSource start stop).
Proof.
  destruct geoDataSource; cbn [geoDataOf];
    (apply Quiet_bind; [now apply Quiet_emit | intros _; apply Quiet_await]).
Qed.

Lemma mapTimezones_throws (timezones : JsValue) (idxs : list JsValue) :
  noCoordinateError (mapTimezones rt timezones idxs).
Proof.
  induction idxs as [ | idx rest IH]; cbn [mapTimezones]; [exact I | ].
  destruct (Js.nullish timezones); [reflexivity | ].
  destruct (mapTimezones rt timezones rest); auto.
Qed.

Lemma Quiet_terminal (tzDataResponse : JsValue) (lat lon originalLon : number)
    (child : JsValue) :
  analyze rt child <> Inner ->
  Quiet (terminal rt getTimezoneAtSea (geoDataOf rt geoDataSource) tzDataResponse
           lat lon originalLon child).
Proof.
  intros Hk. unfold terminal.
  destruct (analyze rt child); try contradiction.
  - apply Quiet_ret.
  - unfold resolveGeometry.
    apply Quiet_bind; [apply Quiet_geoDataOf | intros buf].
    apply Quiet_bind; [apply Quiet_await | intros geo]. apply Quiet_ret.
  - unfold exactMatch.
    apply Quiet_bind.
    + apply Quiet_here. unfold Js.get. now destruct (Js.nullish tzDataResponse).
    + intros tzs. apply Quiet_here. unfold callMap.
      destruct child; try reflexivity. apply mapTimezones_throws.
  - now apply (Quiet_here (Throw UnexpectedDataType)).
Qed.

Lemma Quiet_whileLoop (tzDataResponse : JsValue) (lat lon originalLon : number)
    (fuel : nat) :
  forall st,
    Quiet (whileLoop rt getTimezoneAtSea (geoDataOf rt geoDataSource) tzDataResponse
             lat lon originalLon fuel st).
Proof.
  induction fuel as [ | fuel IH]; intros st.
  - now apply (Quiet_here Pending).
  - destruct (Js.nullish (curTzData st)) eqn:Hcur.
    + intros h. cbn [whileLoop]. unfold bind at 1, loopBody.
      destruct (nextQuadrant lat lon (quadData st)) as [label q1].
      unfold bind at 1, settle at 1, Js.get. rewrite Hcur. cbn.
      repeat split; auto. exists []. now rewrite app_nil_r.
    + destruct (analyze rt (Js.prop (curTzData st)
                  (fst (nextQuadrant lat lon (quadData st))))) eqn:Hk.
      5: { intros h. rewrite whileLoop_enters by assumption. apply IH. }
      all: intros h; rewrite whileLoop_ends by congruence;
        apply Quiet_terminal; congruence.
Qed.

End Quietness.

(* ================================================================= *)
(** * The bound [find] *)

Section FindFacts.

Variable rt : Runtime.
Variable oceanZones : list OceanZone.
Variable getTimezoneAtSea : number -> list string.
Variable g : GeoDataSource.
Variable t : TzDataSource.

#[local] Abbreviation boundFind := (find (init rt oceanZones getTimezoneAtSea g t)).
#[local] Abbreviation lookupFrom :=
  (descend rt getTimezoneAtSea).

Lemma valid_checks (lat lon : number) :
  validCoordinate lat lon = true ->
  Num.isNaN lat || Num.gtb lat Num.n90 || Num.ltb lat Num.m90 = false
  /\ Num.isNaN lon || Num.gtb lon Num.n180 || Num.ltb lon Num.m180 = false.
Proof.
  rewrite validCoordinate_checks, andb_true_iff, !negb_true_iff. auto.
Qed.

Lemma find_invalid (fuel : nat) (lat lon : number) (h : Heap) :
  validCoordinate lat lon = false ->
  exists e, isInvalidCoordinate e = true /\ boundFind fuel lat lon h = (Throw e, h).
Proof.
  rewrite validCoordinate_checks, andb_false_iff, !negb_false_iff.
  intros Hbad. cbn [find init]. unfold findImpl.
  destruct (Num.isNaN lat || Num.gtb lat Num.n90 || Num.ltb lat Num.m90).
  - eexists. split; [ | reflexivity ]. reflexivity.
  - destruct Hbad as [Hbad | Hbad]; [discriminate | ]. rewrite Hbad.
    eexists. split; [ | reflexivity ]. reflexivity.
Qed.

Lemma find_pole (fuel : nat) (lon : number) (h : Heap) :
  inRange Num.m180 Num.n180 lon = true ->
  boundFind fuel Num.n90 lon h
  = (Normal (strings (List.map (fun zone => tzid zone) oceanZones)), h).
Proof.
  intros Hlon.
  assert (Hv : validCoordinate Num.n90 lon = true) by (unfold validCoordinate; now rewrite Hlon).
  destruct (valid_checks _ _ Hv) as [_ Hc].
  cbn [find init]. unfold findImpl. rewrite Hc. reflexivity.
Qed.

Lemma find_descends (fuel : nat) (lat lon : number) (h : Heap) :
  validCoordinate lat lon = true ->
  Num.eqb lat Num.n90 = false ->
  boundFind fuel lat lon h
  = lookupFrom fuel (geoDataOf rt g) (tzDataOf rt t) (clampLat lat) (clampLon lon) lon h.
Proof.
  intros Hv Hpole. destruct (valid_checks _ _ Hv) as [Hc1 Hc2].
  cbn [find init]. unfold findImpl. rewrite Hc1, Hc2, Hpole. reflexivity.
Qed.

Lemma tzDataOf_run (h : Heap) :
  tzDataOf rt t h = await (indexResponse rt t h) (afterIndex rt t h).
Proof.
  destruct t as [url | f]; cbn [tzDataOf indexResponse afterIndex].
  - destruct (tzDataPromise h); reflexivity.
  - unfold bind, emit. reflexivity.
Qed.

Lemma descend_delivered (fuel : nat) (lat lon originalLon : number) (h : Heap)
    (doc : JsValue) :
  indexResponse rt t h = Delivered doc ->
  Js.nullish doc = false ->
  lookupFrom fuel (geoDataOf rt g) (tzDataOf rt t) lat lon originalLon h
  = whileLoop rt getTimezoneAtSea (geoDataOf rt g) doc lat lon originalLon fuel
      {| curTzData := Js.prop doc "lookup"; quadData := initialQuadData; quadPos := "" |}
      (afterIndex rt t h).
Proof.
  intros Hdoc Hnn. unfold descend. unfold bind at 1.
  rewrite tzDataOf_run, Hdoc. cbn [await].
  unfold bind at 1, settle at 1, Js.get. rewrite Hnn. reflexivity.
Qed.

(** Once the index provider has been consulted, the lookup only adds
    geometry requests, and it throws no coordinate error. *)
Lemma descend_after_index (fuel : nat) (lat lon originalLon : number) (h : Heap) :
  let r := lookupFrom fuel (geoDataOf rt g) (tzDataOf rt t) lat lon originalLon h in
  noCoordinateError (fst r)
  /\ tzDataPromise (snd r) = tzDataPromise (afterIndex rt t h)
  /\ exists evs,
       trace (snd r) = trace (afterIndex rt t h) ++ evs
       /\ List.forallb isGeoRequest evs = true.
Proof.
  assert (E : lookupFrom fuel (geoDataOf rt g) (tzDataOf rt t) lat lon originalLon h
              = match indexResponse rt t h with
                | Delivered doc =>
                    bind (settle (Js.get doc "lookup"))
                      (fun cur =>
                         whileLoop rt getTimezoneAtSea (geoDataOf rt g) doc lat lon originalLon fuel
                           {| curTzData := cur; quadData := initialQuadData;
                              quadPos := "" |})
                      (afterIndex rt t h)
                | Failed reason => (Throw (Rejected reason), afterIndex rt t h)
                end).
  { unfold descend. unfold bind at 1. rewrite tzDataOf_run.
    destruct (indexResponse rt t h); reflexivity. }
  cbv zeta. rewrite E. clear E.
  destruct (indexResponse rt t h) as [doc | reason].
  - apply (Quiet_bind (settle (Js.get doc "lookup"))).
    + apply Quiet_here. unfold Js.get. now destruct (Js.nullish doc).
    + intros cur. apply Quiet_whileLoop.
  - cbn. repeat split; auto. exists []. now rewrite app_nil_r.
Qed.




(** Whatever the store and the decoder answer, resolving a geometry leaf
    leaves exactly one request in the trace. *)
Lemma resolveGeometry_heap (lat lon originalLon : number) (child : JsValue) (h : Heap) :
  snd (resolveGeometry rt getTimezoneAtSea (geoDataOf rt g) lat lon originalLon child h)
  = logged (geoRequest rt g (Js.prop child "pos") (rangeStop rt child)) h.
Proof.
  unfold resolveGeometry, rangeStop.
  destruct g as [url | f]; cbn [geoDataOf geoRequest]; unfold bind, emit.
  - destruct (fetchRange rt url _) as [buf | reason]; cbn [await]; [ | reflexivity ].
    destruct (decode rt buf); reflexivity.
  - destruct (f _ _) as [buf | reason]; cbn [await]; [ | reflexivity ].
    destruct (decode rt buf); reflexivity.
Qed.


(** A valid coordinate away from the north pole, a delivered index and
    enough iterations: [find] returns what the node that ends the descent
    resolves to, in the heap the index provider has left. *)
Lemma find_visits (fuel : nat) (lat lon : number) (h : Heap) (doc child : JsValue)
    (q' : QuadData) :
  validCoordinate lat lon = true ->
  Num.eqb lat Num.n90 = false ->
  indexResponse rt t h = Delivered doc ->
  Js.nullish doc = false ->
  depth (Js.prop doc "lookup") < fuel ->
  Visits rt (clampLat lat) (clampLon lon) (Js.prop doc "lookup") initialQuadData child q' ->
  analyze rt child <> Inner ->
  boundFind fuel lat lon h
  = terminal rt getTimezoneAtSea (geoDataOf rt g) doc (clampLat lat) (clampLon lon) lon child
      (afterIndex rt t h).
Proof.
  intros Hv Hpole Hdoc Hnn Hfuel Hvis Hkind.
  rewrite find_descends by assumption.
  rewrite (descend_delivered fuel _ _ _ h doc Hdoc Hnn).
  now apply whileLoop_visits with (q := initialQuadData) (q' := q').
Qed.

(** C2: [find] fails with a coordinate error exactly when the latitude is
    NaN or outside [-90, 90] or the longitude is NaN or outside
    [-180, 180]; the error is then thrown with the heap as it was, so neither
    the index provider nor the geometry provider has been invoked. *)
Theorem invalid_coordinate_exactly (fuel : nat) (lat lon : number) (h : Heap) :
  (validCoordinate lat lon = true
   /\ noCoordinateError (fst (find (init rt oceanZones getTimezoneAtSea g t) fuel lat lon h)))
  \/ (validCoordinate lat lon = false
      /\ exists e,
           isInvalidCoordinate e = true
           /\ find (init rt oceanZones getTimezoneAtSea g t) fuel lat lon h = (Throw e, h)).
Proof.
  destruct (validCoordinate lat lon) eqn:Hv.
  - left. split; [reflexivity | ].
    destruct (Num.eqb lat Num.n90) eqn:Hpole.
    + cbn [find init]. unfold findImpl.
      destruct (valid_checks _ _ Hv) as [-> ->]. rewrite Hpole. exact I.
    + rewrite find_descends by assumption. apply descend_after_index.
  - right. split; [reflexivity | ]. now apply find_invalid.
Qed.

(** C3: at latitude 90 and any valid longitude, [find] returns the ids of
    all the bands of the ocean table in table order and leaves the heap as
    it was, so that neither the index nor the geometry store is consulted;
    the result is the same for every valid longitude. *)
Theorem north_pole_all_ocean_zones (fuel : nat) (x : number) (h : Heap) :
  inRange Num.m180 Num.n180 x = true ->
  find (init rt oceanZones getTimezoneAtSea g t) fuel Num.n90 x h
  = (Normal (strings (List.map (fun zone => tzid zone) oceanZones)), h)
  /\ forall fuel' y,
       inRange Num.m180 Num.n180 y = true ->
       find (init rt oceanZones getTimezoneAtSea g t) fuel' Num.n90 y h
       = find (init rt oceanZones getTimezoneAtSea g t) fuel Num.n90 x h.
Proof.
  intros Hx. split.
  - now apply find_pole.
  - intros fuel' y Hy. now rewrite !find_pole.
Qed.



Lemma gtb_zero_truthy (l : number) :
  Num.gtb l Num.zero = true -> Js.truthy (JNum l) = true.
Proof.
  destruct l as [s | s | | s m e]; cbn; try reflexivity; discriminate.
Qed.

(** A node with a non-negative number [pos] and a positive number [len] is
    a geometry leaf for the loop. *)
Lemma analyze_leaf (child : JsValue) (p l : number) :
  Js.prop child "pos" = JNum p ->
  Js.prop child "len" = JNum l ->
  Num.geb p Num.zero = true ->
  Num.gtb l Num.zero = true ->
  analyze rt child = GeometryLeaf /\ rangeStop rt child = Num.sub (Num.add p l) Num.one.
Proof.
  intros Hpos Hlen Hp Hl. unfold analyze, rangeStop.
  rewrite Hpos, Hlen, (gtb_zero_truthy l Hl).
  assert (Ht : Js.truthy child = true).
  { destruct child; cbn in Hpos; try discriminate; try reflexivity.
    all: destruct (String.eqb "pos" "length"); discriminate. }
  rewrite Ht. cbn [negb]. unfold ge_num, Js.ge_num. cbn [Js.ToNumber Js.ToPrimitive].
  rewrite Hp. split; reflexivity.
Qed.

(** C9: when the descent reaches a geometry leaf with offset [pos] and
    length [len], [find] adds to the trace left by the index provider
    exactly one request of the geometry provider, for the range that starts
    at [pos] and stops at [pos + len - 1]. *)
Theorem geometry_leaf_one_range_request (fuel : nat) (lat lon : number) (h : Heap)
    (doc child : JsValue) (q' : QuadData) (pos len : number) :
  validCoordinate lat lon = true ->
  Num.eqb lat Num.n90 = false ->
  indexResponse rt t h = Delivered doc ->
  Js.nullish doc = false ->
  depth (Js.prop doc "lookup") < fuel ->
  Visits rt (clampLat lat) (clampLon lon) (Js.prop doc "lookup") initialQuadData child q' ->
  Js.prop child "pos" = JNum pos ->
  Js.prop child "len" = JNum len ->
  Num.geb pos Num.zero = true ->
  Num.gtb len Num.zero = true ->
  trace (snd (find (init rt oceanZones getTimezoneAtSea g t) fuel lat lon h))
  = trace (afterIndex rt t h)
    ++ [geoRequest rt g (JNum pos) (Num.sub (Num.add pos len) Num.one)].
Proof.
  intros Hv Hpole Hdoc Hnn Hfuel Hvis Hpos Hlen Hp Hl.
  destruct (analyze_leaf child pos len Hpos Hlen Hp Hl) as [Hk Hstop].
  rewrite (find_visits fuel lat lon h doc child q' Hv Hpole Hdoc Hnn Hfuel Hvis)
    by congruence.
  unfold terminal. rewrite Hk, resolveGeometry_heap, Hpos, Hstop. reflexivity.
Qed.






Lemma geo_requests_no_index (evs : list Event) :
  List.forallb isGeoRequest evs = true -> List.filter isIndexRequest evs = [].
Proof.
  induction evs as [ | e rest IH]; cbn [List.forallb List.filter]; [reflexivity | ].
  rewrite andb_true_iff. intros [He Hrest].
  destruct e; cbn in He; try discriminate; cbn; now apply IH.
Qed.

(** A call either is stopped before the index, and leaves the heap as it
    was, or consults the index provider and adds no other index request. *)
Lemma find_index_requests (fuel : nat) (lat lon : number) (h : Heap) :
  (consultsIndex (mkCall fuel lat lon) = true
   /\ tzDataPromise (snd (boundFind fuel lat lon h)) = tzDataPromise (afterIndex rt t h)
   /\ indexRequests (snd (boundFind fuel lat lon h)) = indexRequests (afterIndex rt t h))
  \/ (consultsIndex (mkCall fuel lat lon) = false
      /\ snd (boundFind fuel lat lon h) = h).
Proof.
  unfold consultsIndex. cbn [callLat callLon].
  destruct (validCoordinate lat lon) eqn:Hv.
  - destruct (Num.eqb lat Num.n90) eqn:Hpole; cbn [andb negb].
    + right. split; [reflexivity | ].
      cbn [find init]. unfold findImpl.
      destruct (valid_checks _ _ Hv) as [-> ->]. rewrite Hpole. reflexivity.
    + left. split; [reflexivity | ].
      rewrite find_descends by assumption.
      destruct (descend_after_index fuel (clampLat lat) (clampLon lon) lon h)
        as (_ & Hp & evs & Ht & Hg).
      split; [assumption | ].
      unfold indexRequests. rewrite Ht, filter_app, (geo_requests_no_index evs Hg).
      apply app_nil_r.
  - right. split; [reflexivity | ].
    destruct (find_invalid fuel lat lon h Hv) as (e & _ & ->). reflexivity.
Qed.

End FindFacts.

(* ================================================================= *)
(** * The quadrant rule *)

Section QuadrantRule.

Variable rt : Runtime.
Variable getTimezoneAtSea : number -> list string.


End QuadrantRule.

(* ================================================================= *)
(** * The memo of the index *)

Section Memo.

Variable rt : Runtime.
Variable oceanZones : list OceanZone.
Variable getTimezoneAtSea : number -> list string.
Variable g : GeoDataSource.

Lemma MemoInvariant_find (url : string) (fuel : nat) (lat lon : number) (h : Heap) :
  MemoInvariant h ->
  MemoInvariant (snd (find (init rt oceanZones getTimezoneAtSea g (TzUrl url)) fuel lat lon h)).
Proof.
  intros Hinv.
  destruct (find_index_requests rt oceanZones getTimezoneAtSea g (TzUrl url) fuel lat lon h)
    as [(_ & Hp & Hr) | (_ & ->)]; [ | assumption ].
  unfold MemoInvariant in *. rewrite Hp, Hr. cbn [afterIndex].
  destruct (tzDataPromise h) eqn:Hmemo.
  - rewrite Hmemo. assumption.
  - cbn [tzDataPromise]. unfold indexRequests in *. cbn [trace].
    rewrite filter_app, Hinv. cbn. lia.
Qed.

Lemma MemoInvariant_runFinds (url : string) (calls : list Call) :
  forall h,
    MemoInvariant h ->
    MemoInvariant (runFinds (init rt oceanZones getTimezoneAtSea g (TzUrl url)) calls h).
Proof.
  induction calls as [ | c rest IH]; intros h Hinv; cbn [runFinds]; [assumption | ].
  apply IH. now apply MemoInvariant_find.
Qed.



End Memo.

(* ================================================================= *)
(** * The properties on the sample instances *)

(** The descent of two iterations: it enters a first child and selects a
    second one. *)
Ltac two_steps :=
  eapply Visits_below;
  [ reflexivity
  | vm_compute; reflexivity
  | eapply Visits_here; reflexivity ].

Lemma invalid_samples_rejected :
  find (Sample.urlInstance Sample.docGeometry) 5 (Num.ofZ 91) Sample.one freshHeap
  = (Throw (InvalidLatitude (Num.ofZ 91)), freshHeap)
  /\ find (Sample.urlInstance Sample.docGeometry) 5 Sample.one Num.NaN freshHeap
     = (Throw (InvalidLongitude Num.NaN), freshHeap).
Proof. split; reflexivity. Qed.

Lemma north_pole_all_ocean_zones_witness :
  inRange Num.m180 Num.n180 (Num.ofZ 7) = true
  /\ find (Sample.urlInstance Sample.docGeometry) 0 Num.n90 (Num.ofZ 7) freshHeap
     = (Normal [JStr "Etc/GMT-8"; JStr "Etc/GMT"; JStr "Etc/GMT+8"], freshHeap).
Proof.
  split; [reflexivity | ].
  exact (proj1 (north_pole_all_ocean_zones (Sample.runtime Sample.docGeometry)
                  Sample.oceanZones Sample.atSea (GeoUrl Sample.geoUrl) (TzUrl Sample.indexUrl)
                  0 (Num.ofZ 7) freshHeap eq_refl)).
Defined.



Lemma geometry_leaf_one_range_request_witness :
  trace (snd (find (Sample.urlInstance Sample.docGeometry) 5 Sample.one Sample.one freshHeap))
  = [FetchIndex Sample.indexUrl; FetchRange Sample.geoUrl "bytes=0-9"]
  /\ trace (snd (find (Sample.fnInstance Sample.docUnnamed) 5 Sample.one Sample.one freshHeap))
     = [CallTzData; CallGeoData (Sample.num 10) (Num.ofZ 29)].
Proof.
  split.
  - refine (geometry_leaf_one_range_request (Sample.runtime Sample.docGeometry)
              Sample.oceanZones Sample.atSea (GeoUrl Sample.geoUrl) (TzUrl Sample.indexUrl)
              5 Sample.one Sample.one freshHeap Sample.docGeometry _ _
              (Num.ofZ 0) (Num.ofZ 10)
              eq_refl eq_refl eq_refl eq_refl _ _ _ _ eq_refl eq_refl).
    + vm_compute. lia.
    + two_steps.
    + reflexivity.
    + reflexivity.
  - refine (geometry_leaf_one_range_request (Sample.runtime Sample.docUnnamed)
              Sample.oceanZones Sample.atSea (GeoFn Sample.geoFn)
              (TzFn (fun _ => Delivered Sample.docUnnamed))
              5 Sample.one Sample.one freshHeap Sample.docUnnamed _ _
              (Num.ofZ 10) (Num.ofZ 20)
              eq_refl eq_refl eq_refl eq_refl _ _ _ _ eq_refl eq_refl).
    + vm_compute. lia.
    + two_steps.
    + reflexivity.
    + reflexivity.
Defined.





(* ================================================================= *)
(** * Where the code departs from the specification *)





(* ================================================================= *)
(** * Further properties of the lookup *)

(** ** Validation, clamping and the quadrant step *)

Section Coordinates.

Variable rt : Runtime.
Variable oceanZones : list OceanZone.
Variable getTimezoneAtSea : number -> list string.
Variable g : GeoDataSource.
Variable t : TzDataSource.

(** X1: an invalid coordinate is reported by the error of its first
    offender: the latitude when it is NaN or out of range, whatever the
    longitude, and the longitude otherwise; the error carries the offending
    value and the heap is left as it was. *)
Theorem coordinate_error_names_offender (fuel : nat) (lat lon : number) (h : Heap) :
  validCoordinate lat lon = false ->
  find (init rt oceanZones getTimezoneAtSea g t) fuel lat lon h
  = (Throw (if inRange Num.m90 Num.n90 lat
            then InvalidLongitude lon
            else InvalidLatitude lat), h).
Proof.
  unfold validCoordinate. rewrite !inRange_check by reflexivity.
  intros Hbad. cbn [find init]. unfold findImpl.
  destruct (Num.isNaN lat || Num.gtb lat Num.n90 || Num.ltb lat Num.m90);
    cbn [negb andb] in *; [reflexivity | ].
  apply negb_false_iff in Hbad. now rewrite Hbad.
Qed.

End Coordinates.

Lemma clamp_facts (x : number) :
  Num.isNaN x = false ->
  inRange Num.m89_9999 Num.n89_9999 (clampLat x) = true
  /\ inRange Num.m179_9999 Num.n179_9999 (clampLon x) = true
  /\ clampLat (clampLat x) = clampLat x
  /\ clampLon (clampLon x) = clampLon x
  /\ (Num.gtb x Num.m89_9999 = true -> Num.ltb x Num.n89_9999 = true -> clampLat x = x)
  /\ (Num.gtb x Num.m179_9999 = true -> Num.ltb x Num.n179_9999 = true -> clampLon x = x).
Proof.
  intros Hx.
  assert (Hlat : forall hi lo,
             SFcompare hi hi = Some Eq -> SFcompare lo lo = Some Eq ->
             SFcompare lo hi = Some Lt -> SFcompare hi lo = Some Gt ->
             let clamp v := if Num.geb v hi then hi else if Num.leb v lo then lo else v in
             inRange lo hi (clamp x) = true
             /\ clamp (clamp x) = clamp x
             /\ (Num.gtb x lo = true -> Num.ltb x hi = true -> clamp x = x)).
  { intros hi lo Ehh Ell Elh Ehl clamp. unfold clamp.
    assert (Hhi : Num.isNaN hi = false) by (destruct hi; [ | | discriminate | ]; reflexivity).
    assert (Hlo : Num.isNaN lo = false) by (destruct lo; [ | | discriminate | ]; reflexivity).
    unfold inRange, Num.geb, Num.leb, Num.gtb, Num.ltb in *.
    destruct (SFcompare_defined x hi Hx Hhi) as [c1 E1].
    destruct (SFcompare_defined x lo Hx Hlo) as [c2 E2].
    rewrite E1, E2.
    destruct c1, c2;
      rewrite ?Ehh, ?Ehl, ?Elh, ?Ell, ?E1, ?E2;
      repeat split; try reflexivity; try discriminate. }
  destruct (Hlat Num.n89_9999 Num.m89_9999) as (A1 & A2 & A3); try reflexivity.
  destruct (Hlat Num.n179_9999 Num.m179_9999) as (B1 & B2 & B3); try reflexivity.
  repeat split; assumption.
Qed.

(** X2: the clamping keeps every number within the extent of the data,
    [-89.9999, 89.9999] for a latitude and [-179.9999, 179.9999] for a
    longitude, leaves a number strictly inside the extent as it is, and
    clamping twice is clamping once. *)
Theorem clamp_within_extent (x : number) :
  Num.isNaN x = false ->
  inRange Num.m89_9999 Num.n89_9999 (clampLat x) = true
  /\ inRange Num.m179_9999 Num.n179_9999 (clampLon x) = true
  /\ clampLat (clampLat x) = clampLat x
  /\ clampLon (clampLon x) = clampLon x
  /\ (Num.gtb x Num.m89_9999 = true -> Num.ltb x Num.n89_9999 = true -> clampLat x = x)
  /\ (Num.gtb x Num.m179_9999 = true -> Num.ltb x Num.n179_9999 = true -> clampLon x = x).
Proof. exact (clamp_facts x). Qed.

(** X3: the box of the descent contains the point.  The initial box
    contains every clamped coordinate, and a quadrant step whose midpoints
    are numbers shrinks the box to a box that still contains the point, with
    which the next iteration starts. *)
Theorem box_contains_point (lat lon : number) (q : QuadData) :
  Num.isNaN lat = false ->
  Num.isNaN lon = false ->
  Num.isNaN (midLat q) = false ->
  Num.isNaN (midLon q) = false ->
  inBox lat lon q = true ->
  inBox lat lon (snd (nextQuadrant lat lon q)) = true
  /\ inBox lat lon (nextDepth (snd (nextQuadrant lat lon q))) = true
  /\ inBox (clampLat lat) (clampLon lon) initialQuadData = true.
Proof.
  intros Hlat Hlon Hmlat Hmlon Hbox.
  assert (Hstep : inBox lat lon (snd (nextQuadrant lat lon q)) = true).
  { unfold inBox in *. apply andb_true_iff in Hbox. destruct Hbox as [Hbox Hr].
    apply andb_true_iff in Hbox. destruct Hbox as [Hbox Hl].
    apply andb_true_iff in Hbox. destruct Hbox as [Hb Ht].
    unfold nextQuadrant, Num.geb, Num.ltb, Num.leb in *.
    destruct (SFcompare_defined lat (midLat q) Hlat Hmlat) as [c1 E1].
    destruct (SFcompare_defined lon (midLon q) Hlon Hmlon) as [c2 E2].
    rewrite E1, E2.
    destruct c1, c2; cbn [andb snd top bottom left right];
      rewrite ?E1, ?E2, ?Hb, ?Ht, ?Hl, ?Hr; reflexivity. }
  split; [exact Hstep | split; [exact Hstep | ] ].
  destruct (clamp_facts lat Hlat) as (A & _).
  destruct (clamp_facts lon Hlon) as (_ & B & _).
  unfold inBox, inRange in *. cbn [initialQuadData top bottom left right].
  apply andb_true_iff in A. destruct A as [-> ->].
  apply andb_true_iff in B. destruct B as [-> ->]. reflexivity.
Qed.

(** ** What a lookup returns and throws *)

Section Outcomes.

Variable rt : Runtime.
Variable oceanZones : list OceanZone.
Variable getTimezoneAtSea : number -> list string.
Variable g : GeoDataSource.
Variable t : TzDataSource.

Lemma descend_failed (fuel : nat) (lat lon originalLon : number) (h : Heap)
    (reason : string) :
  indexResponse rt t h = Failed reason ->
  descend rt getTimezoneAtSea fuel (geoDataOf rt g) (tzDataOf rt t) lat lon originalLon h
  = (Throw (Rejected reason), afterIndex rt t h).
Proof.
  intros Hfail. unfold descend. unfold bind at 1. rewrite tzDataOf_run, Hfail.
  reflexivity.
Qed.


(** X5: when the descent reaches a node with a positive [length] that
    cannot be mapped over the table, because it is no array (a string, say)
    or because the document has no [timezones], [find] fails with a
    TypeError, after the index request and without a geometry request. *)
Theorem unmappable_id_list_throws (fuel : nat) (lat lon : number) (h : Heap)
    (doc child : JsValue) (q' : QuadData) :
  validCoordinate lat lon = true ->
  Num.eqb lat Num.n90 = false ->
  indexResponse rt t h = Delivered doc ->
  Js.nullish doc = false ->
  depth (Js.prop doc "lookup") < fuel ->
  Visits rt (clampLat lat) (clampLon lon) (Js.prop doc "lookup") initialQuadData child q' ->
  analyze rt child = IdListLeaf ->
  ((forall idxs, child <> JArr idxs) \/ Js.nullish (Js.prop doc "timezones") = true) ->
  exists what,
    find (init rt oceanZones getTimezoneAtSea g t) fuel lat lon h
    = (Throw (TypeError what), afterIndex rt t h).
Proof.
  intros Hv Hpole Hdoc Hnn Hfuel Hvis Hk Hcase.
  rewrite (find_visits rt oceanZones getTimezoneAtSea g t fuel lat lon h doc child q'
             Hv Hpole Hdoc Hnn Hfuel Hvis) by congruence.
  unfold terminal. rewrite Hk. unfold exactMatch, bind, settle, Js.get. rewrite Hnn.
  destruct child as [ | | b | n | s | idxs | fields]; cbn [callMap];
    try (eexists; reflexivity).
  destruct Hcase as [Hno | Htz]; [now destruct (Hno idxs) | ].
  destruct idxs as [ | idx rest]; [discriminate Hk | ].
  cbn [mapTimezones]. rewrite Htz. eexists. reflexivity.
Qed.

(** X6: when the index provider delivers [null] or [undefined], or a
    document whose [lookup] is [null] or absent, [find] fails with a
    TypeError as soon as the loop may take one iteration, after the index
    request and without a geometry request. *)
Theorem document_without_lookup_throws (fuel : nat) (lat lon : number) (h : Heap)
    (doc : JsValue) :
  validCoordinate lat lon = true ->
  Num.eqb lat Num.n90 = false ->
  indexResponse rt t h = Delivered doc ->
  Js.nullish doc || Js.nullish (Js.prop doc "lookup") = true ->
  0 < fuel ->
  exists what,
    find (init rt oceanZones getTimezoneAtSea g t) fuel lat lon h
    = (Throw (TypeError what), afterIndex rt t h).
Proof.
  intros Hv Hpole Hdoc Hcase Hfuel.
  rewrite (find_descends rt oceanZones getTimezoneAtSea g t fuel lat lon h Hv Hpole).
  unfold descend. unfold bind at 1. rewrite tzDataOf_run, Hdoc. cbn [await].
  unfold bind at 1, settle at 1, Js.get.
  destruct (Js.nullish doc) eqn:Hnn; [eexists; reflexivity | ].
  cbn [orb] in Hcase.
  destruct fuel as [ | fuel]; [lia | ].
  cbn [whileLoop]. unfold bind at 1, loopBody. cbn [curTzData quadData].
  destruct (nextQuadrant (clampLat lat) (clampLon lon) initialQuadData) as [label q1].
  unfold bind at 1, settle at 1, Js.get. rewrite Hcase. eexists. reflexivity.
Qed.

(** X7: when the index provider fails, [find] is rejected with the reason
    of the provider, unchanged, and makes no geometry request. *)
Theorem index_failure_propagates (fuel : nat) (lat lon : number) (h : Heap)
    (reason : string) :
  validCoordinate lat lon = true ->
  Num.eqb lat Num.n90 = false ->
  indexResponse rt t h = Failed reason ->
  find (init rt oceanZones getTimezoneAtSea g t) fuel lat lon h
  = (Throw (Rejected reason), afterIndex rt t h).
Proof.
  intros Hv Hpole Hfail.
  rewrite (find_descends rt oceanZones getTimezoneAtSea g t fuel lat lon h Hv Hpole).
  now apply descend_failed.
Qed.



End Outcomes.

(** ** Calls one after the other *)

Lemma HeapBlind_settle {A} (o : Outcome A) : HeapBlind (settle o).
Proof. intros h h'. reflexivity. Qed.

Lemma HeapBlind_ret {A} (a : A) : HeapBlind (ret a).
Proof. intros h h'. reflexivity. Qed.

Lemma HeapBlind_await {A} (r : Response A) : HeapBlind (await r).
Proof. intros h h'. destruct r; reflexivity. Qed.

Lemma HeapBlind_bind {A B} (m : M A) (k : A -> M B) :
  HeapBlind m -> (forall a, HeapBlind (k a)) -> HeapBlind (bind m k).
Proof.
  intros Hm Hk h h'. unfold bind. specialize (Hm h h').
  destruct (m h) as [[a | e | ] h1], (m h') as [[a' | e' | ] h1'];
    cbn [fst] in *; try discriminate; try congruence.
  injection Hm as <-. apply Hk.
Qed.

Section Calls.

Variable rt : Runtime.
Variable oceanZones : list OceanZone.
Variable getTimezoneAtSea : number -> list string.
Variable g : GeoDataSource.
Variable t : TzDataSource.

Lemma HeapBlind_geoDataOf (start : JsValue) (stop : number) :
  HeapBlind (geoDataOf rt g start stop).
Proof.
  destruct g; cbn [geoDataOf];
    (apply HeapBlind_bind; [intros h h'; reflexivity | intros _; apply HeapBlind_await]).
Qed.

Lemma HeapBlind_loopBody (tzDataResponse : JsValue) (lat lon originalLon : number)
    (st : LoopState) :
  HeapBlind (loopBody rt getTimezoneAtSea (geoDataOf rt g) tzDataResponse
               lat lon originalLon st).
Proof.
  unfold loopBody.
  destruct (nextQuadrant lat lon (quadData st)) as [label q1].
  apply HeapBlind_bind; [apply HeapBlind_settle | intros child].
  destruct (negb (Js.truthy child)); [apply HeapBlind_ret | ].
  destruct (ge_num rt (Js.prop child "pos") Num.zero && Js.truthy (Js.prop child "len")).
  { apply HeapBlind_bind; [ | intros tzs; apply HeapBlind_ret ].
    unfold resolveGeometry.
    apply HeapBlind_bind; [apply HeapBlind_geoDataOf | intros buf].
    apply HeapBlind_bind; [apply HeapBlind_await | intros geo; apply HeapBlind_ret ]. }
  destruct (gt_num rt (Js.prop child "length") Num.zero).
  { apply HeapBlind_bind; [ | intros tzs; apply HeapBlind_ret ].
    unfold exactMatch.
    apply HeapBlind_bind; [apply HeapBlind_settle | intros tz; apply HeapBlind_settle ]. }
  destruct (negb (String.eqb (Js.typeof child) "object"));
    [intros h h'; reflexivity | apply HeapBlind_ret].
Qed.

Lemma HeapBlind_whileLoop (tzDataResponse : JsValue) (lat lon originalLon : number)
    (fuel : nat) :
  forall st,
    HeapBlind (whileLoop rt getTimezoneAtSea (geoDataOf rt g) tzDataResponse
                 lat lon originalLon fuel st).
Proof.
  induction fuel as [ | fuel IH]; intros st; cbn [whileLoop].
  - apply HeapBlind_settle.
  - apply HeapBlind_bind; [apply HeapBlind_loopBody | ].
    intros [st' | tzs]; [apply IH | apply HeapBlind_ret].
Qed.

(** The lookup once the index provider has answered. *)
Lemma descend_unfold (fuel : nat) (lat lon originalLon : number) (h : Heap) :
  descend rt getTimezoneAtSea fuel (geoDataOf rt g) (tzDataOf rt t) lat lon originalLon h
  = match indexResponse rt t h with
    | Delivered doc =>
        bind (settle (Js.get doc "lookup"))
          (fun cur =>
             whileLoop rt getTimezoneAtSea (geoDataOf rt g) doc lat lon originalLon fuel
               {| curTzData := cur; quadData := initialQuadData; quadPos := "" |})
          (afterIndex rt t h)
    | Failed reason => (Throw (Rejected reason), afterIndex rt t h)
    end.
Proof.
  unfold descend. unfold bind at 1. rewrite tzDataOf_run.
  destruct (indexResponse rt t h); reflexivity.
Qed.

(** The outcome of a call depends on the heap through the answer of the
    index provider only. *)
Lemma find_outcome_by_index (fuel : nat) (lat lon : number) (h h' : Heap) :
  indexResponse rt t h = indexResponse rt t h' ->
  fst (find (init rt oceanZones getTimezoneAtSea g t) fuel lat lon h)
  = fst (find (init rt oceanZones getTimezoneAtSea g t) fuel lat lon h').
Proof.
  intros Hsame. cbn [find init]. unfold findImpl.
  destruct (Num.isNaN lat || Num.gtb lat Num.n90 || Num.ltb lat Num.m90); [reflexivity | ].
  destruct (Num.isNaN lon || Num.gtb lon Num.n180 || Num.ltb lon Num.m180); [reflexivity | ].
  destruct (Num.eqb lat Num.n90); [reflexivity | ].
  rewrite !descend_unfold, Hsame.
  destruct (indexResponse rt t h') as [doc | reason]; [ | reflexivity ].
  apply (HeapBlind_bind (settle (Js.get doc "lookup"))).
  - apply HeapBlind_settle.
  - intros cur. apply HeapBlind_whileLoop.
Qed.

Lemma InstanceHeap_fresh : InstanceHeap rt t freshHeap.
Proof. destruct t; cbn; auto. Qed.

Lemma InstanceHeap_find (fuel : nat) (lat lon : number) (h : Heap) :
  InstanceHeap rt t h ->
  InstanceHeap rt t (snd (find (init rt oceanZones getTimezoneAtSea g t) fuel lat lon h)).
Proof.
  intros Hinv.
  destruct (find_index_requests rt oceanZones getTimezoneAtSea g t fuel lat lon h)
    as [(_ & Hp & Hr) | (_ & ->)]; [ | assumption ].
  unfold InstanceHeap in *. destruct t as [url | f]; [ | exact I ].
  rewrite Hp, Hr. cbn [afterIndex].
  destruct Hinv as [[Hnone Hreq] | [Hsome Hreq]].
  - right. rewrite Hnone. cbn [tzDataPromise]. split; [reflexivity | ].
    unfold indexRequests in *. cbn [trace]. rewrite filter_app, Hreq. reflexivity.
  - right. rewrite Hsome. auto.
Qed.

Lemma InstanceHeap_runFinds (calls : list Call) :
  forall h,
    InstanceHeap rt t h ->
    InstanceHeap rt t (runFinds (init rt oceanZones getTimezoneAtSea g t) calls h).
Proof.
  induction calls as [ | c rest IH]; intros h Hinv; cbn [runFinds]; [assumption | ].
  apply IH. now apply InstanceHeap_find.
Qed.

Lemma InstanceHeap_index (h : Heap) :
  InstanceHeap rt t h -> indexResponse rt t h = indexResponse rt t freshHeap.
Proof.
  unfold InstanceHeap. destruct t as [url | f]; cbn [indexResponse freshHeap tzDataPromise];
    [ | reflexivity ].
  intros [[-> _] | [-> _]]; reflexivity.
Qed.

(** X10: on a bound instance, the outcome of [find] for given arguments is
    the same at every call, whatever calls came before: the memo of the
    index changes the requests that are made, not what is returned or
    thrown. *)
Theorem outcome_same_at_every_call (calls : list Call) (fuel : nat) (lat lon : number) :
  fst (find (init rt oceanZones getTimezoneAtSea g t) fuel lat lon
         (runFinds (init rt oceanZones getTimezoneAtSea g t) calls freshHeap))
  = fst (find (init rt oceanZones getTimezoneAtSea g t) fuel lat lon freshHeap).
Proof.
  apply find_outcome_by_index, InstanceHeap_index, InstanceHeap_runFinds,
    InstanceHeap_fresh.
Qed.

End Calls.

(** ** The requests of a call *)

Section Requests.

Variable rt : Runtime.
Variable oceanZones : list OceanZone.
Variable getTimezoneAtSea : number -> list string.
Variable g : GeoDataSource.

Lemma geoRequest_is_geo (start : JsValue) (stop : number) :
  isGeoRequest (geoRequest rt g start stop) = true.
Proof. destruct g; reflexivity. Qed.

Lemma afterIndex_trace (t : TzDataSource) (h : Heap) :
  exists ix,
    trace (afterIndex rt t h) = trace h ++ ix
    /\ List.length ix <= 1
    /\ List.forallb isIndexRequest ix = true.
Proof.
  destruct t as [url | f]; cbn [afterIndex].
  - destruct (tzDataPromise h).
    + exists []. rewrite app_nil_r. auto.
    + exists [FetchIndex url]. auto.
  - exists [CallTzData]. auto.
Qed.

(** What a node that ends the loop leaves in the heap. *)
Lemma terminal_heap (tzDataResponse : JsValue) (lat lon originalLon : number)
    (child : JsValue) (h : Heap) :
  snd (terminal rt getTimezoneAtSea (geoDataOf rt g) tzDataResponse lat lon originalLon
         child h)
  = match analyze rt child with
    | GeometryLeaf => logged (geoRequest rt g (Js.prop child "pos") (rangeStop rt child)) h
    | _ => h
    end.
Proof.
  unfold terminal. destruct (analyze rt child); try reflexivity.
  - apply resolveGeometry_heap.
  - unfold exactMatch, bind, settle.
    destruct (Js.get tzDataResponse "timezones"); reflexivity.
Qed.

Lemma whileLoop_trace (tzDataResponse : JsValue) (lat lon originalLon : number)
    (fuel : nat) :
  forall st h,
    exists gx,
      trace (snd (whileLoop rt getTimezoneAtSea (geoDataOf rt g) tzDataResponse
                    lat lon originalLon fuel st h))
      = trace h ++ gx
      /\ List.length gx <= 1
      /\ List.forallb isGeoRequest gx = true.
Proof.
  induction fuel as [ | fuel IH]; intros st h.
  - exists []. cbn. rewrite app_nil_r. auto.
  - destruct (Js.nullish (curTzData st)) eqn:Hcur.
    + exists []. cbn [whileLoop]. unfold bind at 1, loopBody.
      destruct (nextQuadrant lat lon (quadData st)) as [label q1].
      unfold bind at 1, settle at 1, Js.get. rewrite Hcur. cbn.
      rewrite app_nil_r. auto.
    + destruct (analyze rt (Js.prop (curTzData st)
                  (fst (nextQuadrant lat lon (quadData st))))) eqn:Hk.
      5: { rewrite whileLoop_enters by assumption. apply IH. }
      all: rewrite whileLoop_ends by congruence; rewrite terminal_heap, Hk.
      2: { eexists [_]. cbn [logged trace]. split; [reflexivity | ].
           split; [auto | ]. cbn. now rewrite geoRequest_is_geo. }
      all: exists []; rewrite app_nil_r; auto.
Qed.

(** X11: a call of the bound [find], whatever the index, the providers and
    the decoder answer, only adds to the trace: at most one index request,
    followed by at most one geometry request. *)
Theorem one_request_of_each_kind (t : TzDataSource) (fuel : nat) (lat lon : number)
    (h : Heap) :
  exists ix gx,
    trace (snd (find (init rt oceanZones getTimezoneAtSea g t) fuel lat lon h))
    = trace h ++ ix ++ gx
    /\ List.length ix <= 1
    /\ List.forallb isIndexRequest ix = true
    /\ List.length gx <= 1
    /\ List.forallb isGeoRequest gx = true.
Proof.
  destruct (validCoordinate lat lon) eqn:Hv.
  - destruct (Num.eqb lat Num.n90) eqn:Hpole.
    + exists [], []. cbn [find init]. unfold findImpl.
      destruct (valid_checks _ _ Hv) as [-> ->]. rewrite Hpole.
      cbn. rewrite ?app_nil_r. repeat split; auto.
    + rewrite (find_descends rt oceanZones getTimezoneAtSea g t fuel lat lon h Hv Hpole).
      rewrite descend_unfold.
      destruct (afterIndex_trace t h) as (ix & Hix & Hlen & Hall).
      exists ix.
      destruct (indexResponse rt t h) as [doc | reason].
      * unfold bind, settle, Js.get.
        destruct (Js.nullish doc).
        -- exists []. cbn [snd]. rewrite ?app_nil_r. repeat split; auto.
        -- destruct (whileLoop_trace doc (clampLat lat) (clampLon lon) lon fuel
                       {| curTzData := Js.prop doc "lookup";
                          quadData := initialQuadData; quadPos := "" |}
                       (afterIndex rt t h)) as (gx & Hgx & Hglen & Hgall).
           exists gx. rewrite Hgx, Hix, app_assoc. repeat split; auto.
      * exists []. cbn [snd]. rewrite ?app_nil_r. repeat split; auto.
  - exists [], [].
    destruct (find_invalid rt oceanZones getTimezoneAtSea g t fuel lat lon h Hv)
      as (e & _ & ->).
    cbn. rewrite ?app_nil_r. repeat split; auto.
Qed.

(** X12: on an instance bound to a URL whose fetch fails, the failure is
    kept in the memo and never retried: after any number of calls, a call
    that consults the index is rejected with the reason of that fetch, and
    the whole trace of the instance is the one request of the failed
    fetch. *)
Theorem failed_index_fetch_never_retried (url reason : string) (calls : list Call)
    (c : Call) :
  fetchJson rt url = Failed reason ->
  consultsIndex c = true ->
  find (init rt oceanZones getTimezoneAtSea g (TzUrl url))
    (callFuel c) (callLat c) (callLon c)
    (runFinds (init rt oceanZones getTimezoneAtSea g (TzUrl url)) calls freshHeap)
  = (Throw (Rejected reason),
     {| tzDataPromise := Some (Failed reason); trace := [FetchIndex url] |}).
Proof.
  intros Hfail Hc.
  assert (Hstep : forall c' h,
             h = freshHeap
             \/ h = {| tzDataPromise := Some (Failed reason); trace := [FetchIndex url] |} ->
             (consultsIndex c' = true ->
              find (init rt oceanZones getTimezoneAtSea g (TzUrl url))
                (callFuel c') (callLat c') (callLon c') h
              = (Throw (Rejected reason),
                 {| tzDataPromise := Some (Failed reason); trace := [FetchIndex url] |}))
             /\ (consultsIndex c' = false ->
                 snd (find (init rt oceanZones getTimezoneAtSea g (TzUrl url))
                        (callFuel c') (callLat c') (callLon c') h) = h)).
  { intros c' h Hh. split.
    - unfold consultsIndex. rewrite andb_true_iff, negb_true_iff. intros [Hv Hpole].
      rewrite (find_descends rt oceanZones getTimezoneAtSea g (TzUrl url) _ _ _ h Hv Hpole).
      rewrite (descend_failed rt getTimezoneAtSea g (TzUrl url) _ _ _ _ h reason).
      + destruct Hh as [-> | ->]; cbn; now rewrite ?Hfail.
      + destruct Hh as [-> | ->]; cbn; now rewrite ?Hfail.
    - intros Hno.
      destruct (find_index_requests rt oceanZones getTimezoneAtSea g (TzUrl url)
                  (callFuel c') (callLat c') (callLon c') h) as [(Hyes & _) | (_ & Hsame)].
      + destruct c'. cbn [callFuel callLat callLon] in *. congruence.
      + exact Hsame. }
  assert (Hrun : forall cs h,
             h = freshHeap
             \/ h = {| tzDataPromise := Some (Failed reason); trace := [FetchIndex url] |} ->
             runFinds (init rt oceanZones getTimezoneAtSea g (TzUrl url)) cs h = freshHeap
             \/ runFinds (init rt oceanZones getTimezoneAtSea g (TzUrl url)) cs h
                = {| tzDataPromise := Some (Failed reason); trace := [FetchIndex url] |}).
  { induction cs as [ | c' rest IH]; intros h Hh; cbn [runFinds]; [assumption | ].
    apply IH. destruct (Hstep c' h Hh) as [Hyes Hno].
    destruct (consultsIndex c') eqn:Hc'.
    - right. now rewrite Hyes.
    - rewrite (Hno eq_refl). assumption. }
  apply Hstep; [ | assumption ]. apply Hrun. now left.
Qed.

End Requests.

(** ** No cache of geometry, no memo across the exported [find] *)

Section NoCache.

Variable rt : Runtime.
Variable oceanZones : list OceanZone.
Variable getTimezoneAtSea : number -> list string.




(** X14: the exported [find] binds a new instance at every call, so that
    nothing is memoized from one call to the next: every call that gets
    past the validation and the north-pole case fetches the index again,
    and what a call returns does not depend on the calls before it. *)
Theorem exported_find_fetches_every_call (cs : list Call) (requests : list Event) :
  List.length (List.filter isIndexRequest
                 (Exported.calls rt oceanZones getTimezoneAtSea cs requests))
  = List.length (List.filter isIndexRequest requests)
    + List.length (List.filter consultsIndex cs)
  /\ forall c,
       fst (Exported.call rt oceanZones getTimezoneAtSea c requests)
       = GeoTZ.find rt oceanZones getTimezoneAtSea (callFuel c) (callLat c) (callLon c).
Proof.
  split.
  - revert requests.
    induction cs as [ | c rest IH]; intros requests;
      cbn [Exported.calls List.filter]; [cbn; lia | ].
    rewrite IH. unfold Exported.call. cbn [snd].
    destruct c as [fuel lat lon]. cbn [callFuel callLat callLon].
    destruct (find_index_requests rt oceanZones getTimezoneAtSea
                GeoTZ.defaultGeoDataSource GeoTZ.defaultTzDataSource fuel lat lon
                {| tzDataPromise := None; trace := requests |})
      as [(Hc & _ & Hr) | (Hc & Hh)]; rewrite Hc.
    + unfold indexRequests in Hr. rewrite Hr.
      cbn [GeoTZ.defaultTzDataSource afterIndex tzDataPromise trace].
      rewrite filter_app, length_app. cbn. lia.
    + rewrite Hh. cbn [trace List.length]. lia.
  - intros c. unfold Exported.call, GeoTZ.find. cbn [fst].
    now apply find_outcome_by_index.
Qed.

End NoCache.

(* ================================================================= *)
(** * The earlier [find] against the bound one *)

Section LegacyFacts.

Variable rt : Runtime.
Variable oceanZones : list OceanZone.
Variable getTimezoneAtSea : number -> list string.

#[local] Abbreviation cdnGeoData := (geoDataOf rt (GeoUrl Legacy.geoUrl)).
#[local] Abbreviation cdnInstance :=
  (init rt oceanZones getTimezoneAtSea (GeoUrl Legacy.geoUrl) (TzUrl Legacy.indexUrl)).

Lemma legacy_loopBody_analyze (lat lon originalLon : number) (st : LoopState) (h : Heap) :
  Js.nullish (curTzData st) = false ->
  Legacy.loopBody rt getTimezoneAtSea lat lon originalLon st h =
    let label := fst (nextQuadrant lat lon (quadData st)) in
    let child := Js.prop (curTzData st) label in
    match analyze rt child with
    | Inner =>
        (Normal (inl {| curTzData := child;
                        quadData := nextDepth (snd (nextQuadrant lat lon (quadData st)));
                        quadPos := (quadPos st ++ label)%string |}), h)
    | _ => lift_inr (Legacy.terminal rt getTimezoneAtSea lat lon originalLon child h)
    end.
Proof.
  intros Hcur. unfold Legacy.loopBody, Legacy.terminal, analyze.
  destruct (nextQuadrant lat lon (quadData st)) as [label q1]. cbn [fst snd].
  unfold Js.get. rewrite Hcur. unfold bind at 1. unfold settle at 1.
  destruct (Js.truthy (Js.prop (curTzData st) label)); cbn [negb]; [ | reflexivity ].
  destruct (ge_num rt (Js.prop (Js.prop (curTzData st) label) "pos") Num.zero
            && Js.truthy (Js.prop (Js.prop (curTzData st) label) "len")).
  { apply bind_ret_inr. }
  destruct (gt_num rt (Js.prop (Js.prop (curTzData st) label) "length") Num.zero).
  { apply bind_ret_inr. }
  destruct (String.eqb (Js.typeof (Js.prop (curTzData st) label)) "object");
    reflexivity.
Qed.

Lemma legacy_whileLoop_ends (lat lon originalLon : number) (fuel : nat)
    (st : LoopState) (h : Heap) :
  Js.nullish (curTzData st) = false ->
  analyze rt (Js.prop (curTzData st) (fst (nextQuadrant lat lon (quadData st)))) <> Inner ->
  Legacy.whileLoop rt getTimezoneAtSea lat lon originalLon (S fuel) st h
  = Legacy.terminal rt getTimezoneAtSea lat lon originalLon
      (Js.prop (curTzData st) (fst (nextQuadrant lat lon (quadData st)))) h.
Proof.
  intros Hcur Hkind. cbn [Legacy.whileLoop]. unfold bind at 1.
  rewrite (legacy_loopBody_analyze lat lon originalLon st h Hcur). cbv zeta.
  destruct (analyze rt (Js.prop (curTzData st) (fst (nextQuadrant lat lon (quadData st)))));
    try contradiction;
    destruct (Legacy.terminal _ _ _ _ _ _ h) as [[tzs | e | ] h']; reflexivity.
Qed.

Lemma legacy_whileLoop_enters (lat lon originalLon : number) (fuel : nat)
    (st : LoopState) (h : Heap) :
  Js.nullish (curTzData st) = false ->
  analyze rt (Js.prop (curTzData st) (fst (nextQuadrant lat lon (quadData st)))) = Inner ->
  Legacy.whileLoop rt getTimezoneAtSea lat lon originalLon (S fuel) st h
  = Legacy.whileLoop rt getTimezoneAtSea lat lon originalLon fuel
      {| curTzData := Js.prop (curTzData st) (fst (nextQuadrant lat lon (quadData st)));
         quadData := nextDepth (snd (nextQuadrant lat lon (quadData st)));
         quadPos := (quadPos st ++ fst (nextQuadrant lat lon (quadData st)))%string |} h.
Proof.
  intros Hcur Hkind. cbn [Legacy.whileLoop]. unfold bind at 1.
  rewrite (legacy_loopBody_analyze lat lon originalLon st h Hcur). cbv zeta.
  rewrite Hkind. reflexivity.
Qed.


(** The unguarded reading of [properties.tzid] gives what the guarded one
    gives as long as the features around the point have properties. *)
Lemma legacy_collect_agrees (pt : number * number) (features : list Feature) :
  (forall feature,
     In feature features -> inside rt pt feature = true ->
     Js.truthy (properties feature) = true) ->
  Legacy.collect rt pt features
  = Normal (List.flat_map
              (fun feature =>
                 if inside rt pt feature then
                   if Js.truthy (properties feature)
                   then [Js.prop (properties feature) "tzid"]
                   else []
                 else [])
              features).
Proof.
  induction features as [ | f rest IH]; intros Hall;
    cbn [Legacy.collect List.flat_map]; [reflexivity | ].
  rewrite IH by (intros f' Hin; apply Hall; now right).
  destruct (inside rt pt f) eqn:Hin; [ | reflexivity ].
  pose proof (Hall f (or_introl eq_refl) Hin) as Ht. rewrite Ht.
  unfold Js.get.
  destruct (properties f); cbn in Ht; try discriminate; reflexivity.
Qed.

Lemma legacy_timezones_agree (pt : number * number) (geoJson : GeoJson) :
  (forall feature,
     In feature (featuresOf geoJson) -> inside rt pt feature = true ->
     Js.truthy (properties feature) = true) ->
  Legacy.timezonesContainingPoint rt pt geoJson
  = Normal (timezonesContainingPoint rt pt geoJson).
Proof.
  intros Hall.
  destruct geoJson as [features | feature | geom];
    cbn [Legacy.timezonesContainingPoint timezonesContainingPoint featuresOf] in *.
  - now apply legacy_collect_agrees.
  - rewrite (legacy_collect_agrees pt [feature] Hall). cbn [List.flat_map].
    rewrite app_nil_r.
    destruct (inside rt pt feature); [ | reflexivity ].
    destruct (Js.truthy (properties feature)); reflexivity.
  - reflexivity.
Qed.


Section Point.

Variables lat lon originalLon : number.
Variable doc : JsValue.

(** Every decoded feature around the point has properties. *)
Definition FeaturesNamed : Prop :=
  forall bufSlice geoJson feature,
    decode rt bufSlice = Delivered geoJson ->
    In feature (featuresOf geoJson) ->
    inside rt (lon, lat) feature = true ->
    Js.truthy (properties feature) = true.

Lemma legacy_terminal_related (child : JsValue) (h : Heap) :
  tzDataPromise h = Some (Delivered doc) ->
  snd (Legacy.terminal rt getTimezoneAtSea lat lon originalLon child h)
  = snd (terminal rt getTimezoneAtSea cdnGeoData doc lat lon originalLon child h)
  /\ (FeaturesNamed ->
      Legacy.terminal rt getTimezoneAtSea lat lon originalLon child h
      = terminal rt getTimezoneAtSea cdnGeoData doc lat lon originalLon child h).
Proof.
  intros Hmemo. unfold Legacy.terminal, terminal.
  destruct (analyze rt child); try (split; reflexivity).
  - unfold Legacy.resolveGeometry, resolveGeometry, Legacy.geoData.
    cbn [geoDataOf]. unfold bind, emit.
    destruct (fetchRange rt Legacy.geoUrl _) as [buf | reason]; cbn [await];
      [ | split; reflexivity ].
    destruct (decode rt buf) as [geo | reason] eqn:Hdec; cbn [await];
      [ | split; reflexivity ].
    unfold settle, ret. split.
    + destruct (Legacy.timezonesContainingPoint rt (lon, lat) geo); reflexivity.
    + intros Hnamed.
      rewrite legacy_timezones_agree; [reflexivity | ].
      intros f Hin Hinside. exact (Hnamed buf geo f Hdec Hin Hinside).
  - assert (E : Legacy.exactMatch rt child h = exactMatch rt doc child h).
    { unfold Legacy.exactMatch. unfold bind at 1. unfold Legacy.awaitTzData.
      rewrite Hmemo. reflexivity. }
    rewrite E. split; reflexivity.
Qed.

Lemma legacy_whileLoop_related (fuel : nat) :
  forall st h,
    tzDataPromise h = Some (Delivered doc) ->
    snd (Legacy.whileLoop rt getTimezoneAtSea lat lon originalLon fuel st h)
    = snd (whileLoop rt getTimezoneAtSea cdnGeoData doc lat lon originalLon fuel st h)
    /\ (FeaturesNamed ->
        Legacy.whileLoop rt getTimezoneAtSea lat lon originalLon fuel st h
        = whileLoop rt getTimezoneAtSea cdnGeoData doc lat lon originalLon fuel st h).
Proof.
  induction fuel as [ | fuel IH]; intros st h Hmemo; [split; reflexivity | ].
  destruct (Js.nullish (curTzData st)) eqn:Hcur.
  - assert (E : Legacy.whileLoop rt getTimezoneAtSea lat lon originalLon (S fuel) st h
                = whileLoop rt getTimezoneAtSea cdnGeoData doc lat lon originalLon
                    (S fuel) st h).
    { cbn [Legacy.whileLoop whileLoop]. unfold bind, Legacy.loopBody, loopBody.
      destruct (nextQuadrant lat lon (quadData st)) as [label q1].
      unfold bind, settle, Js.get. rewrite Hcur. reflexivity. }
    rewrite E. split; reflexivity.
  - destruct (analyze rt (Js.prop (curTzData st)
                (fst (nextQuadrant lat lon (quadData st))))) eqn:Hk.
    5: { rewrite legacy_whileLoop_enters, whileLoop_enters by assumption.
         now apply IH. }
    all: rewrite legacy_whileLoop_ends, whileLoop_ends by congruence;
      now apply legacy_terminal_related.
Qed.

End Point.

(** The earlier [find] once the memo has been looked at. *)
Lemma legacy_find_unfold (fuel : nat) (lat lon : number) (h : Heap) :
  validCoordinate lat lon = true ->
  Num.eqb lat Num.n90 = false ->
  Legacy.find rt oceanZones getTimezoneAtSea fuel lat lon h
  = match indexResponse rt (TzUrl Legacy.indexUrl) h with
    | Delivered doc =>
        bind (settle (Js.get doc "lookup"))
          (fun cur =>
             Legacy.whileLoop rt getTimezoneAtSea (clampLat lat) (clampLon lon) lon fuel
               {| curTzData := cur; quadData := initialQuadData; quadPos := "" |})
          (afterIndex rt (TzUrl Legacy.indexUrl) h)
    | Failed reason => (Throw (Rejected reason), afterIndex rt (TzUrl Legacy.indexUrl) h)
    end.
Proof.
  intros Hv Hpole. destruct (valid_checks _ _ Hv) as [Hc1 Hc2].
  unfold Legacy.find. rewrite Hc1, Hc2, Hpole.
  unfold bind at 1, Legacy.ensureTzData. cbn [indexResponse afterIndex].
  destruct (tzDataPromise h) as [promise | ] eqn:Hmemo.
  - unfold bind at 1, Legacy.awaitTzData. rewrite Hmemo.
    destruct promise; reflexivity.
  - unfold bind at 1, Legacy.awaitTzData. cbn [tzDataPromise].
    destruct (fetchJson rt Legacy.indexUrl); reflexivity.
Qed.

Lemma memo_afterIndex (url : string) (h : Heap) :
  tzDataPromise (afterIndex rt (TzUrl url) h) = Some (indexResponse rt (TzUrl url) h).
Proof.
  cbn [afterIndex indexResponse]. destruct (tzDataPromise h) eqn:Hmemo; [assumption | ].
  reflexivity.
Qed.

Lemma legacy_find_related (fuel : nat) (lat lon : number) (h : Heap) :
  snd (Legacy.find rt oceanZones getTimezoneAtSea fuel lat lon h)
  = snd (find cdnInstance fuel lat lon h)
  /\ (FeaturesNamed (clampLat lat) (clampLon lon) ->
      Legacy.find rt oceanZones getTimezoneAtSea fuel lat lon h
      = find cdnInstance fuel lat lon h).
Proof.
  destruct (validCoordinate lat lon) eqn:Hv.
  - destruct (Num.eqb lat Num.n90) eqn:Hpole.
    + assert (E : Legacy.find rt oceanZones getTimezoneAtSea fuel lat lon h
                  = find cdnInstance fuel lat lon h).
      { cbn [find init]. unfold Legacy.find, findImpl.
        destruct (valid_checks _ _ Hv) as [-> ->]. now rewrite Hpole. }
      rewrite E. split; reflexivity.
    + rewrite (legacy_find_unfold fuel lat lon h Hv Hpole).
      rewrite (find_descends rt oceanZones getTimezoneAtSea _ _ fuel lat lon h Hv Hpole).
      rewrite descend_unfold.
      pose proof (memo_afterIndex Legacy.indexUrl h) as Hmemo.
      destruct (indexResponse rt (TzUrl Legacy.indexUrl) h) as [doc | reason];
        [ | split; reflexivity ].
      unfold bind, settle.
      destruct (Js.get doc "lookup") as [cur | e | ]; try (split; reflexivity).
      now apply legacy_whileLoop_related.
  - assert (E : Legacy.find rt oceanZones getTimezoneAtSea fuel lat lon h
                = find cdnInstance fuel lat lon h).
    { cbn [find init]. unfold Legacy.find, findImpl.
      rewrite validCoordinate_checks in Hv.
      destruct (Num.isNaN lat || Num.gtb lat Num.n90 || Num.ltb lat Num.m90);
        [reflexivity | ].
      cbn [negb andb] in Hv. apply negb_false_iff in Hv. now rewrite Hv. }
    rewrite E. split; reflexivity.
Qed.

(** X15: the earlier [find] makes the requests the bound [find] of the two
    CDN files makes, and leaves the memo of the index as it leaves it, for
    every coordinate and every answer of the providers: the two can only
    differ in what they return. *)
Theorem legacy_requests_agree (fuel : nat) (lat lon : number) (h : Heap) :
  snd (Legacy.find rt oceanZones getTimezoneAtSea fuel lat lon h)
  = snd (find (init rt oceanZones getTimezoneAtSea
                 (GeoUrl Legacy.geoUrl) (TzUrl Legacy.indexUrl)) fuel lat lon h).
Proof. exact (proj1 (legacy_find_related fuel lat lon h)). Qed.

(** X16: when every decoded feature that contains the clamped point has
    properties, the earlier [find] and the bound [find] of the two CDN files
    return or throw the same and leave the same heap. *)
Theorem legacy_find_agrees (fuel : nat) (lat lon : number) (h : Heap) :
  (forall bufSlice geoJson feature,
     decode rt bufSlice = Delivered geoJson ->
     In feature (featuresOf geoJson) ->
     inside rt (clampLon lon, clampLat lat) feature = true ->
     Js.truthy (properties feature) = true) ->
  Legacy.find rt oceanZones getTimezoneAtSea fuel lat lon h
  = find (init rt oceanZones getTimezoneAtSea
            (GeoUrl Legacy.geoUrl) (TzUrl Legacy.indexUrl)) fuel lat lon h.
Proof. exact (proj2 (legacy_find_related fuel lat lon h)). Qed.


End LegacyFacts.

Section LegacyMemo.

Variable rt : Runtime.
Variable oceanZones : list OceanZone.
Variable getTimezoneAtSea : number -> list string.

Lemma legacyRuns_runFinds (calls : list Call) :
  forall h,
    legacyRuns rt oceanZones getTimezoneAtSea calls h
    = runFinds (init rt oceanZones getTimezoneAtSea
                  (GeoUrl Legacy.geoUrl) (TzUrl Legacy.indexUrl)) calls h.
Proof.
  induction calls as [ | c rest IH]; intros h; cbn [legacyRuns runFinds]; [reflexivity | ].
  rewrite IH. f_equal. cbn [find init].
  exact (proj1 (legacy_find_related rt oceanZones getTimezoneAtSea
                  (callFuel c) (callLat c) (callLon c) h)).
Qed.

(** X18: the earlier [find] memoizes the index in the module: over any
    number of calls it makes one index request at most, where the exported
    [find] of today makes one in every call. *)
Theorem legacy_index_fetched_once (calls : list Call) :
  List.length (indexRequests (legacyRuns rt oceanZones getTimezoneAtSea calls freshHeap))
  <= 1.
Proof.
  rewrite legacyRuns_runFinds.
  pose proof (MemoInvariant_runFinds rt oceanZones getTimezoneAtSea
                (GeoUrl Legacy.geoUrl) Legacy.indexUrl calls freshHeap
                (eq_refl : MemoInvariant freshHeap)) as Hinv.
  unfold MemoInvariant in Hinv.
  destruct (tzDataPromise _); [assumption | rewrite Hinv; cbn; lia].
Qed.

End LegacyMemo.

(* ================================================================= *)
(** * The further properties on the sample hosts *)


Lemma coordinate_error_names_offender_witness :
  find (Sample.urlInstance Sample.docGeometry) 5 (Num.ofZ 91) Num.NaN freshHeap
  = (Throw (InvalidLatitude (Num.ofZ 91)), freshHeap)
  /\ find (Sample.urlInstance Sample.docGeometry) 5 Sample.one (Num.ofZ 181) freshHeap
     = (Throw (InvalidLongitude (Num.ofZ 181)), freshHeap).
Proof.
  split.
  - exact (coordinate_error_names_offender (Sample.runtime Sample.docGeometry)
             Sample.oceanZones Sample.atSea (GeoUrl Sample.geoUrl) (TzUrl Sample.indexUrl)
             5 (Num.ofZ 91) Num.NaN freshHeap eq_refl).
  - exact (coordinate_error_names_offender (Sample.runtime Sample.docGeometry)
             Sample.oceanZones Sample.atSea (GeoUrl Sample.geoUrl) (TzUrl Sample.indexUrl)
             5 Sample.one (Num.ofZ 181) freshHeap eq_refl).
Defined.

Lemma clamp_within_extent_witness :
  Num.isNaN Num.n180 = false
  /\ inRange Num.m89_9999 Num.n89_9999 (clampLat Num.n180) = true
  /\ inRange Num.m179_9999 Num.n179_9999 (clampLon Num.n180) = true
  /\ clampLat Sample.one = Sample.one.
Proof.
  split; [reflexivity | split; [ | split ] ].
  - exact (proj1 (clamp_within_extent Num.n180 eq_refl)).
  - exact (proj1 (proj2 (clamp_within_extent Num.n180 eq_refl))).
  - exact (proj1 (proj2 (proj2 (proj2 (proj2 (clamp_within_extent Sample.one eq_refl)))))
             eq_refl eq_refl).
Defined.

Lemma box_contains_point_witness :
  inBox Sample.one MoreSamples.minusOne initialQuadData = true
  /\ inBox Sample.one MoreSamples.minusOne
       {| top := Num.n89_9999; bottom := Num.zero; left := Num.m179_9999;
          right := Num.zero; midLat := Num.zero; midLon := Num.zero |} = true.
Proof.
  split; [reflexivity | ].
  exact (proj1 (box_contains_point Sample.one MoreSamples.minusOne initialQuadData
                  eq_refl eq_refl eq_refl eq_refl eq_refl)).
Defined.


Lemma unmappable_id_list_throws_witness :
  exists what,
    find (Sample.urlInstance MoreSamples.docString) 5 Sample.one Sample.one freshHeap
    = (Throw (TypeError what),
       {| tzDataPromise := Some (Delivered MoreSamples.docString);
          trace := [FetchIndex Sample.indexUrl] |}).
Proof.
  refine (unmappable_id_list_throws (Sample.runtime MoreSamples.docString)
            Sample.oceanZones Sample.atSea (GeoUrl Sample.geoUrl) (TzUrl Sample.indexUrl)
            5 Sample.one Sample.one freshHeap MoreSamples.docString (JStr "x") _
            eq_refl eq_refl eq_refl eq_refl _ _ eq_refl _).
  - vm_compute. lia.
  - two_steps.
  - left. intros idxs. discriminate.
Defined.

Lemma document_without_lookup_throws_witness :
  exists what,
    find (init (Sample.runtime MoreSamples.docNoLookup) Sample.oceanZones Sample.atSea
            (GeoUrl Sample.geoUrl) (TzFn (fun _ => Delivered MoreSamples.docNoLookup)))
      1 Sample.one Sample.one freshHeap
    = (Throw (TypeError what), {| tzDataPromise := None; trace := [CallTzData] |}).
Proof.
  refine (document_without_lookup_throws (Sample.runtime MoreSamples.docNoLookup)
            Sample.oceanZones Sample.atSea (GeoUrl Sample.geoUrl)
            (TzFn (fun _ => Delivered MoreSamples.docNoLookup))
            1 Sample.one Sample.one freshHeap MoreSamples.docNoLookup
            eq_refl eq_refl eq_refl eq_refl _).
  lia.
Defined.

Lemma index_failure_propagates_witness :
  find (init (Sample.runtime Sample.docGeometry) Sample.oceanZones Sample.atSea
          (GeoUrl Sample.geoUrl) (TzUrl MoreSamples.missingUrl))
    5 Sample.one Sample.one freshHeap
  = (Throw (Rejected "404"),
     {| tzDataPromise := Some (Failed "404");
        trace := [FetchIndex MoreSamples.missingUrl] |}).
Proof.
  exact (index_failure_propagates (Sample.runtime Sample.docGeometry)
           Sample.oceanZones Sample.atSea (GeoUrl Sample.geoUrl)
           (TzUrl MoreSamples.missingUrl)
           5 Sample.one Sample.one freshHeap "404" eq_refl eq_refl eq_refl).
Defined.



Lemma failed_index_fetch_never_retried_witness :
  find (init (Sample.runtime Sample.docGeometry) Sample.oceanZones Sample.atSea
          (GeoUrl Sample.geoUrl) (TzUrl MoreSamples.missingUrl))
    5 Sample.one Sample.one
    (runFinds (init (Sample.runtime Sample.docGeometry) Sample.oceanZones Sample.atSea
                 (GeoUrl Sample.geoUrl) (TzUrl MoreSamples.missingUrl))
       [mkCall 5 Sample.one Sample.one; mkCall 0 Num.n90 Sample.one] freshHeap)
  = (Throw (Rejected "404"),
     {| tzDataPromise := Some (Failed "404");
        trace := [FetchIndex MoreSamples.missingUrl] |}).
Proof.
  exact (failed_index_fetch_never_retried (Sample.runtime Sample.docGeometry)
           Sample.oceanZones Sample.atSea (GeoUrl Sample.geoUrl)
           MoreSamples.missingUrl "404"
           [mkCall 5 Sample.one Sample.one; mkCall 0 Num.n90 Sample.one]
           (mkCall 5 Sample.one Sample.one) eq_refl eq_refl).
Defined.


Lemma legacy_find_agrees_witness :
  Legacy.find (MoreSamples.cdnRuntime Sample.docGeometry MoreSamples.namedDecoder)
    Sample.oceanZones Sample.atSea 5 Sample.one Sample.one freshHeap
  = find (init (MoreSamples.cdnRuntime Sample.docGeometry MoreSamples.namedDecoder)
            Sample.oceanZones Sample.atSea
            (GeoUrl Legacy.geoUrl) (TzUrl Legacy.indexUrl)) 5 Sample.one Sample.one freshHeap
  /\ fst (Legacy.find (MoreSamples.cdnRuntime Sample.docGeometry MoreSamples.namedDecoder)
            Sample.oceanZones Sample.atSea 5 Sample.one Sample.one freshHeap)
     = Normal [JStr "Europe/London"; JStr "Africa/Lagos"].
Proof.
  split; [ | reflexivity].
  refine (legacy_find_agrees (MoreSamples.cdnRuntime Sample.docGeometry MoreSamples.namedDecoder)
            Sample.oceanZones Sample.atSea 5 Sample.one Sample.one freshHeap _).
  intros bufSlice geoJson feature Hdec Hin _.
  injection Hdec as <-.
  destruct Hin as [<- | [<- | [<- | [] ] ] ]; reflexivity.
Defined.

